(** * Network info page of Raveberry ([core/network_info.py])

    A shallow embedding of the [NetworkInfo] class: the two parsers of
    [ip] output, the QR helper and the [index] request handler, together
    with the properties of the page that the specification states.

    Python [str] values are modelled by [string]; a character stands for
    the code point of the same number (the range 0..255).  The handler
    runs in a small state-and-exception monad whose state is the
    chronological list of external calls made so far. *)

From Stdlib Require Import Ascii ZArith.
From stdpp Require Import base list strings gmap.

(** ** Python string primitives *)

Module Py.

(** Characters [str.isspace] accepts, below code point 256:
    TAB..CR, FS..US, space, NEL and the non-breaking space. *)
Definition isspace (c : ascii) : bool :=
  let n := N_of_ascii c in
  ((9 <=? n) && (n <=? 13) || (28 <=? n) && (n <=? 32)
   || (n =? 133) || (n =? 160))%N.

(** Truthiness of a string: [not s] holds for the empty string only. *)
Definition is_empty (s : string) : bool :=
  match s with EmptyString => true | String _ _ => false end.

(** [s.split()]: the maximal runs of non-whitespace characters, in order.
    [cur] is the token being read. *)
Fixpoint split_ws (cur : string) (s : string) : list string :=
  match s with
  | EmptyString => if is_empty cur then [] else [cur]
  | String c s' =>
      if isspace c
      then (if is_empty cur then split_ws EmptyString s'
            else cur :: split_ws EmptyString s')
      else split_ws (cur +:+ String c EmptyString) s'
  end.

Definition split (s : string) : list string := split_ws EmptyString s.

(** [s.split(sep)] for a one-character separator: one more piece than
    there are separators, empty pieces kept. *)
Fixpoint split_on_from (sep : ascii) (cur : string) (s : string) : list string :=
  match s with
  | EmptyString => [cur]
  | String c s' =>
      if Ascii.eqb c sep
      then cur :: split_on_from sep EmptyString s'
      else split_on_from sep (cur +:+ String c EmptyString) s'
  end.

Definition split_on (sep : ascii) (s : string) : list string :=
  split_on_from sep EmptyString s.

Fixpoint lstrip (s : string) : string :=
  match s with
  | EmptyString => EmptyString
  | String c s' => if isspace c then lstrip s' else s
  end.

Fixpoint rstrip (s : string) : string :=
  match s with
  | EmptyString => EmptyString
  | String c s' =>
      let r := rstrip s' in
      if isspace c && is_empty r then EmptyString else String c r
  end.

(** [s.strip()] *)
Definition strip (s : string) : string := rstrip (lstrip s).

(** [s.startswith(p)] *)
Definition startswith (p s : string) : bool := String.prefix p s.

(** [s[:-1]]: the stop index is [len(s) - 1], clipped at 0. *)
Definition slice_to_m1 (s : string) : string :=
  String.substring 0 (String.length s - 1)%nat s.

(** [str(x)] as an f-string field renders it: [None] prints as the text
    [None]. *)
Definition str (x : option string) : string :=
  match x with
  | None => "None"
  | Some s => s
  end.

End Py.

Definition LF : ascii := ascii_of_nat 10.
Definition SLASH : ascii := ascii_of_nat 47.

(** ** Exceptions, external calls and the handler monad *)

Inductive exn : Type :=
  | CalledProcessError (returncode : Z) (cmd : list string)
  | OSError (cmd : list string)
  | ValueError (msg : string)
  | IndexError
  | TypeError.

Inductive result (A : Type) : Type :=
  | Ok (a : A)
  | Raise (e : exn).
Arguments Ok {A} a.
Arguments Raise {A} e.

(** What the host does with a command: it runs to completion with an exit
    status and its standard output, or it cannot be started at all. *)
Inductive completed : Type :=
  | Exited (returncode : Z) (stdout : string)
  | NotStarted.

(** The calls that leave the module: a process handed to [subprocess], a
    payload handed to the [qrcode] library. *)
Inductive event : Type :=
  | Spawn (argv : list string)
  | QrEncode (data : string).

Global Instance event_eq_dec : EqDecision event.
Proof. solve_decision. Defined.

Definition trace : Type := list event.

Definition M (A : Type) : Type := trace -> result A * trace.

Definition ret {A} (a : A) : M A := fun t => (Ok a, t).

Definition raise {A} (e : exn) : M A := fun t => (Raise e, t).

Definition bind {A B} (m : M A) (k : A -> M B) : M B :=
  fun t =>
    match m t with
    | (Ok a, t') => k a t'
    | (Raise e, t') => (Raise e, t')
    end.

Definition emit (e : event) : M unit := fun t => (Ok tt, t ++ [e]).

Definition lift {A} (r : result A) : M A := fun t => (r, t).

(** [try: body  except subprocess.CalledProcessError: handler]; the calls
    the body made before it raised stay made. *)
Definition try_except_CalledProcessError {A} (body handler : M A) : M A :=
  fun t =>
    match body t with
    | (Raise (CalledProcessError _ _), t') => handler t'
    | r => r
    end.

Notation "x <- m ;; k" := (bind m (fun x => k))
  (at level 100, m at next level, right associativity).

(** ** Values handed to the template *)

Inductive pyval : Type :=
  | PyNone
  | PyStr (s : string)
  | PyObj (id : nat).

Definition optional_str (x : option string) : pyval :=
  match x with
  | None => PyNone
  | Some s => PyStr s
  end.

Inductive User : Type :=
  | AnonymousUser
  | Account (username : string).

Record WSGIRequest : Type := { user : User }.

Inductive HttpResponse : Type :=
  | redirect (to : string)
  | render (request : WSGIRequest) (template_name : string)
           (context : gmap string pyval).

(** [core.base.Base], as far as this module uses it: the admin test of its
    user manager and the base template context. *)
Record Base : Type := {
  is_admin : User -> bool;
  context : WSGIRequest -> gmap string pyval
}.

Record NetworkInfo : Type := { base : Base }.

(** The values [index] gathers before it builds the page. *)
Record Facts : Type := {
  ssid : option string;
  password : option string;
  wifi_active : bool;
  device : string;
  ip : string
}.

(** The loop of [_get_default_device]:
    [for cur, nex in zip(words, words[1:]): if cur == "dev": device = nex] *)
Fixpoint device_loop (pairs : list (string * string)) (device : option string)
  : option string :=
  match pairs with
  | [] => device
  | (cur, nex) :: rest =>
      device_loop rest (if String.eqb cur "dev" then Some nex else device)
  end.

(** The loop of [_ip_of_device]; it leaves at the first line that starts
    with [inet], with the value assigned to [ip] there. *)
Fixpoint ip_loop (lines : list string) : result (option string) :=
  match lines with
  | [] => Ok None
  | line :: rest =>
      let line := Py.strip line in
      if negb (Py.startswith "inet" line) then ip_loop rest
      else
        match Py.split line !! 1%nat with
        | None => Raise IndexError
        | Some field =>
            match Py.split_on SLASH field !! 0%nat with
            | None => Raise IndexError
            | Some ip => Ok (Some ip)
            end
        end
  end.

(** The four command lines of the module:
    ["/sbin/iwgetid --raw".split()], ["ip route show default".split()],
    [f"ip -4 a show dev {device}".split()] and the argument list of the
    password helper. *)
Definition iwgetid_cmd : list string := Py.split "/sbin/iwgetid --raw".
Definition route_cmd : list string := Py.split "ip route show default".
Definition addr_cmd (device : string) : list string :=
  Py.split ("ip -4 a show dev " +:+ device).
Definition password_cmd (ssid : string) : list string :=
  ["sudo"; "/usr/local/sbin/raveberry/password_for_ssid"; ssid].

(** The address of the page, [f"http://{ip}/"]. *)
Definition page_url (ip : string) : string := "http://" +:+ ip +:+ "/".

Section Handler.

(** The host the page runs on, and the SVG document the [qrcode] library
    saves for a payload. *)
Variable host : list string -> completed.
Variable svg_of : string -> string.

(** [subprocess.check_output(argv, universal_newlines=True)] *)
Definition check_output (argv : list string) : M string :=
  _ <- emit (Spawn argv) ;;
  match host argv with
  | Exited 0 stdout => ret stdout
  | Exited returncode _ => raise (CalledProcessError returncode argv)
  | NotStarted => raise (OSError argv)
  end.

Definition _get_default_device : M string :=
  output <- check_output route_cmd ;;
  let words := Py.split output in
  let device := device_loop (zip words (drop 1 words)) None in
  match device with
  | Some device =>
      if Py.is_empty device then raise (ValueError "No default device found")
      else ret device
  | None => raise (ValueError "No default device found")
  end.

Definition _ip_of_device (device : string) : M string :=
  output <- check_output (addr_cmd device) ;;
  ip <- lift (ip_loop (Py.split_on LF output)) ;;
  match ip with
  | Some ip =>
      if Py.is_empty ip then raise (ValueError ("ip not found for " +:+ device))
      else ret ip
  | None => raise (ValueError ("ip not found for " +:+ device))
  end.

(** The second line of the SVG document is the path element. *)
Definition _qr_path (data : string) : M string :=
  _ <- emit (QrEncode data) ;;
  match Py.split_on LF (svg_of data) !! 1%nat with
  | Some tag => ret tag
  | None => raise IndexError
  end.

Definition wifi_payload (ssid password : option string) : string :=
  "WIFI:S:" +:+ Py.str ssid +:+ ";T:WPA;P:" +:+ Py.str password +:+ ";;".

(** Lines 80 to 88 of [index]: the [try] around [iwgetid]; the pair is
    the value of [ssid] and of [wifi_active] after it. *)
Definition wifi_status : M (option string * bool) :=
  try_except_CalledProcessError
    (output <- check_output iwgetid_cmd ;;
     ret (Some (Py.slice_to_m1 output), true))
    (ret (None, false)).

(** Lines 93 to 100 of [index]: the value of [password] after the helper
    was asked, or was not. *)
Definition wifi_password (wifi_active : bool) (ssid : option string)
  : M (option string) :=
  if wifi_active then
    match ssid with
    | Some name =>
        try_except_CalledProcessError
          (output <- check_output (password_cmd name) ;;
           ret (Some output))
          (ret None)
    | None => raise TypeError
    end
  else ret None.

(** Lines 80 to 100 of [index]: the four external commands. *)
Definition index_probe : M Facts :=
  status <- wifi_status ;;
  let ssid := fst status in
  let wifi_active := snd status in
  device <- _get_default_device ;;
  ip <- _ip_of_device device ;;
  password <- wifi_password wifi_active ssid ;;
  ret {| ssid := ssid; password := password; wifi_active := wifi_active;
         device := device; ip := ip |}.

(** Lines 106 to 116 of [index]: the keys the handler sets. *)
Definition template_context (context : gmap string pyval) (f : Facts)
    (wifi_qr raveberry_url raveberry_qr : string) : gmap string pyval :=
  let context :=
    if wifi_active f then
      <["wifi_qr" := PyStr wifi_qr]>
        (<["password" := optional_str (password f)]>
           (<["ssid" := optional_str (ssid f)]> context))
    else
      <["wifi_qr" := PyNone]>
        (<["password" := PyNone]> (<["ssid" := PyNone]> context)) in
  <["ip" := PyStr (ip f)]>
    (<["raveberry_qr" := PyStr raveberry_qr]>
       (<["raveberry_url" := PyStr raveberry_url]> context)).

(** Lines 102 to 117 of [index]: the QR codes and the page. *)
Definition index_page (request : WSGIRequest) (context : gmap string pyval)
    (f : Facts) : M HttpResponse :=
  wifi_qr <- _qr_path (wifi_payload (ssid f) (password f)) ;;
  let raveberry_url := page_url (ip f) in
  raveberry_qr <- _qr_path raveberry_url ;;
  let context :=
    template_context context f wifi_qr raveberry_url raveberry_qr in
  ret (render request "network_info.html" context).

Definition index (self : NetworkInfo) (request : WSGIRequest) : M HttpResponse :=
  if negb (is_admin (base self) (user request)) then ret (redirect "login")
  else
    let context := context (base self) request in
    f <- index_probe ;;
    index_page request context f.

End Handler.

(** ** Specification vocabulary *)

(** The tokens that directly follow a token [dev], in order. *)
Fixpoint dev_candidates (words : list string) : list string :=
  match words with
  | [] => []
  | cur :: rest =>
      match rest with
      | nex :: _ =>
          if String.eqb cur "dev" then nex :: dev_candidates rest
          else dev_candidates rest
      | [] => []
      end
  end.

(** Some token [dev] of [words] has a token after it. *)
Fixpoint follows_dev (words : list string) : bool :=
  match words with
  | [] => false
  | cur :: rest =>
      match rest with
      | _ :: _ => String.eqb cur "dev" || follows_dev rest
      | [] => false
      end
  end.

(** [occurs c s]: the character [c] appears in [s]. *)
Fixpoint occurs (c : ascii) (s : string) : bool :=
  match s with
  | EmptyString => false
  | String a s' => Ascii.eqb a c || occurs c s'
  end.

(** A line of [ip] output is an address line when, trimmed, it starts with
    [inet]. *)
Definition inet_line (line : string) : bool :=
  Py.startswith "inet" (Py.strip line).

(** A computation only ever adds calls at the end of the trace. *)
Definition extends {A} (m : M A) : Prop :=
  forall t, exists calls, snd (m t) = t ++ calls.

(** The second line of the SVG document the library saves for [data]. *)
Definition svg_tag (svg_of : string -> string) (data : string) : option string :=
  Py.split_on LF (svg_of data) !! 1%nat.

(** Position of the first occurrence of an event in a trace. *)
Fixpoint position (e : event) (t : trace) : option nat :=
  match t with
  | [] => None
  | x :: t' => if bool_decide (x = e) then Some 0%nat else S <$> position e t'
  end.

(** [precedes a b t]: both calls were made and [a] was made first. *)
Definition precedes (a b : event) (t : trace) : bool :=
  match position a t, position b t with
  | Some i, Some j => (i <? j)%nat
  | _, _ => false
  end.

(** ** Sample hosts *)

Definition NL : string := String LF EmptyString.

Definition route_two_defaults : string :=
  "default via 192.168.1.1 dev eth0 proto dhcp metric 100" +:+ NL +:+
  "default via 192.168.1.1 dev wlan0 proto dhcp metric 600" +:+ NL.

Definition route_none : string :=
  "192.168.1.0/24 proto kernel scope link src 192.168.1.5" +:+ NL.

Definition addr_wlan0 : string :=
  "3: wlan0: <BROADCAST,MULTICAST,UP,LOWER_UP> mtu 1500 qdisc noqueue state UP"
  +:+ NL +:+
  "    inet 192.168.1.5/24 brd 192.168.1.255 scope global dynamic wlan0"
  +:+ NL +:+
  "    inet 10.0.0.7/8 scope global secondary wlan0" +:+ NL.

Definition addr_no_inet : string :=
  "3: wlan0: <BROADCAST,MULTICAST,UP,LOWER_UP> mtu 1500 qdisc noqueue state UP"
  +:+ NL +:+ "    link/ether b8:27:eb:00:00:01 brd ff:ff:ff:ff:ff:ff" +:+ NL.

(** An address line whose second field has nothing before the slash. *)
Definition addr_bare_prefix : string :=
  "3: wlan0: <BROADCAST,MULTICAST,UP,LOWER_UP> mtu 1500 qdisc noqueue state UP"
  +:+ NL +:+ "    inet /24 brd 192.168.1.255 scope global wlan0" +:+ NL.

(** A host described by what its four commands do. *)
Definition sample_host (iwgetid helper : completed) (route addr : string)
  : list string -> completed :=
  fun argv =>
    if bool_decide (argv = ["/sbin/iwgetid"; "--raw"]) then iwgetid
    else if bool_decide (argv = ["ip"; "route"; "show"; "default"])
    then Exited 0 route
    else if bool_decide (take 5 argv = ["ip"; "-4"; "a"; "show"; "dev"])
    then Exited 0 addr
    else if bool_decide (take 2 argv =
                           ["sudo"; "/usr/local/sbin/raveberry/password_for_ssid"])
    then helper
    else NotStarted.

Definition no_wifi : completed := Exited 255 "".

(** A wired host: no wireless association, one default route. *)
Definition route_wired : string :=
  "default via 192.168.1.1 dev eth0 proto dhcp metric 100" +:+ NL.

Definition addr_eth0 : string :=
  "2: eth0: <BROADCAST,MULTICAST,UP,LOWER_UP> mtu 1500 qdisc mq state UP"
  +:+ NL +:+
  "    inet 192.168.1.7/24 brd 192.168.1.255 scope global dynamic eth0"
  +:+ NL.

Definition wired_host : list string -> completed :=
  sample_host no_wifi NotStarted route_wired addr_eth0.

(** A host on the network [MyNet]; [helper] is what the password helper
    does there. *)
Definition wifi_host (helper : completed) : list string -> completed :=
  sample_host (Exited 0 ("MyNet" +:+ NL)) helper route_two_defaults addr_wlan0.

(** The same host with an [iwgetid] that prints no newline after the name. *)
Definition bare_ssid_host : list string -> completed :=
  sample_host (Exited 0 "MyNet") (Exited 1 "") route_two_defaults addr_wlan0.

Definition sample_svg (data : string) : string :=
  "<?xml version='1.0' encoding='UTF-8'?>" +:+ NL +:+
  "<svg><path id='" +:+ data +:+ "'/></svg>".

Definition sample_base : Base :=
  {| is_admin := fun u =>
       match u with
       | Account name => String.eqb name "admin"
       | AnonymousUser => false
       end;
     context := fun _ => {[ "base" := PyObj 0 ]} |}.

Definition sample_self : NetworkInfo := {| base := sample_base |}.
Definition admin_request : WSGIRequest := {| user := Account "admin" |}.
Definition guest_request : WSGIRequest := {| user := AnonymousUser |}.

(** ** Outcomes of the probe *)

(** [has_space s]: a whitespace character appears in [s]. *)
Fixpoint has_space (s : string) : bool :=
  match s with
  | EmptyString => false
  | String c s' => Py.isspace c || has_space s'
  end.

(** The keys [index] assigns in the template context. *)
Definition page_keys : list string :=
  ["ssid"; "password"; "wifi_qr"; "raveberry_url"; "raveberry_qr"; "ip"].

(** A host given by a table of commands; a command that is not in the
    table cannot be started. *)
Fixpoint scripted_host (script : list (list string * completed))
    (argv : list string) : completed :=
  match script with
  | [] => NotStarted
  | (cmd, outcome) :: rest =>
      if bool_decide (argv = cmd) then outcome else scripted_host rest argv
  end.

(** The seven ways lines 80 to 100 of [index] can end on a host, with the
    calls made on the way. *)
Inductive probe_outcome (host : list string -> completed) (t : trace)
  : result Facts * trace -> Prop :=
  | probe_status_not_started :
      host iwgetid_cmd = NotStarted ->
      probe_outcome host t
        (Raise (OSError iwgetid_cmd), t ++ [Spawn iwgetid_cmd])
  | probe_device_failed rc out e :
      host iwgetid_cmd = Exited rc out ->
      fst (_get_default_device host []) = Raise e ->
      probe_outcome host t
        (Raise e, t ++ [Spawn iwgetid_cmd; Spawn route_cmd])
  | probe_ip_failed rc out dev e :
      host iwgetid_cmd = Exited rc out ->
      fst (_get_default_device host []) = Ok dev ->
      fst (_ip_of_device host dev []) = Raise e ->
      probe_outcome host t
        (Raise e, t ++ [Spawn iwgetid_cmd; Spawn route_cmd;
                        Spawn (addr_cmd dev)])
  | probe_wifi_inactive rc out dev addr :
      host iwgetid_cmd = Exited rc out -> rc ≠ 0%Z ->
      fst (_get_default_device host []) = Ok dev ->
      fst (_ip_of_device host dev []) = Ok addr ->
      probe_outcome host t
        (Ok {| ssid := None; password := None; wifi_active := false;
               device := dev; ip := addr |},
         t ++ [Spawn iwgetid_cmd; Spawn route_cmd; Spawn (addr_cmd dev)])
  | probe_password_found out dev addr pw :
      host iwgetid_cmd = Exited 0 out ->
      fst (_get_default_device host []) = Ok dev ->
      fst (_ip_of_device host dev []) = Ok addr ->
      host (password_cmd (Py.slice_to_m1 out)) = Exited 0 pw ->
      probe_outcome host t
        (Ok {| ssid := Some (Py.slice_to_m1 out); password := Some pw;
               wifi_active := true; device := dev; ip := addr |},
         t ++ [Spawn iwgetid_cmd; Spawn route_cmd; Spawn (addr_cmd dev);
               Spawn (password_cmd (Py.slice_to_m1 out))])
  | probe_password_missing out dev addr rc pw :
      host iwgetid_cmd = Exited 0 out ->
      fst (_get_default_device host []) = Ok dev ->
      fst (_ip_of_device host dev []) = Ok addr ->
      host (password_cmd (Py.slice_to_m1 out)) = Exited rc pw -> rc ≠ 0%Z ->
      probe_outcome host t
        (Ok {| ssid := Some (Py.slice_to_m1 out); password := None;
               wifi_active := true; device := dev; ip := addr |},
         t ++ [Spawn iwgetid_cmd; Spawn route_cmd; Spawn (addr_cmd dev);
               Spawn (password_cmd (Py.slice_to_m1 out))])
  | probe_helper_not_started out dev addr :
      host iwgetid_cmd = Exited 0 out ->
      fst (_get_default_device host []) = Ok dev ->
      fst (_ip_of_device host dev []) = Ok addr ->
      host (password_cmd (Py.slice_to_m1 out)) = NotStarted ->
      probe_outcome host t
        (Raise (OSError (password_cmd (Py.slice_to_m1 out))),
         t ++ [Spawn iwgetid_cmd; Spawn route_cmd; Spawn (addr_cmd dev);
               Spawn (password_cmd (Py.slice_to_m1 out))]).

(** The context of a rendered page, empty for any other result. *)
Definition rendered_context (r : result HttpResponse) : gmap string pyval :=
  match r with
  | Ok (render _ _ ctx) => ctx
  | _ => ∅
  end.

(** The page of the sample admin on a host with Wi-Fi and a stored
    password. *)
Definition sample_page : result HttpResponse * trace :=
  index (wifi_host (Exited 0 ("secret" +:+ NL))) sample_svg sample_self
        admin_request [].

(** ** The monad, step by step *)

Section MonadLaws.
Context {A B : Type}.

Lemma bind_ok (m : M A) (k : A -> M B) t a t' :
  m t = (Ok a, t') -> bind m k t = k a t'.
Proof. intros H. unfold bind. by rewrite H. Qed.

Lemma bind_raise (m : M A) (k : A -> M B) t e t' :
  m t = (Raise e, t') -> bind m k t = (Raise e, t').
Proof. intros H. unfold bind. by rewrite H. Qed.

Lemma try_ok (body handler : M A) t a t' :
  body t = (Ok a, t') ->
  try_except_CalledProcessError body handler t = (Ok a, t').
Proof. intros H. unfold try_except_CalledProcessError. by rewrite H. Qed.

Lemma try_caught (body handler : M A) t rc cmd t' :
  body t = (Raise (CalledProcessError rc cmd), t') ->
  try_except_CalledProcessError body handler t = handler t'.
Proof. intros H. unfold try_except_CalledProcessError. by rewrite H. Qed.
End MonadLaws.

Section CheckOutput.
Variable host : list string -> completed.

Lemma check_output_zero argv out t :
  host argv = Exited 0 out ->
  check_output host argv t = (Ok out, t ++ [Spawn argv]).
Proof. intros H. unfold check_output, bind, emit. by rewrite H. Qed.

Lemma check_output_nonzero argv rc out t :
  host argv = Exited rc out -> rc ≠ 0%Z ->
  check_output host argv t =
    (Raise (CalledProcessError rc argv), t ++ [Spawn argv]).
Proof.
  intros H Hrc. unfold check_output, bind, emit. rewrite H.
  by destruct rc.
Qed.

Lemma check_output_trace argv t :
  snd (check_output host argv t) = t ++ [Spawn argv].
Proof.
  unfold check_output, bind, emit.
  destruct (host argv) as [[| |] ?|]; reflexivity.
Qed.
End CheckOutput.

(** ** Strings *)

Lemma is_empty_true s : Py.is_empty s = true <-> s = EmptyString.
Proof. destruct s; simpl; split; congruence. Qed.

Lemma append_cons c s1 s2 : String c s1 +:+ s2 = String c (s1 +:+ s2).
Proof. reflexivity. Qed.

Lemma append_empty_l s : EmptyString +:+ s = s.
Proof. reflexivity. Qed.

Lemma append_empty_r s : s +:+ EmptyString = s.
Proof. induction s; rewrite ?append_cons; [done | congruence]. Qed.

Lemma append_assoc s1 s2 s3 : (s1 +:+ s2) +:+ s3 = s1 +:+ (s2 +:+ s3).
Proof. induction s1; rewrite ?append_cons, ?append_empty_l; congruence. Qed.

Lemma is_empty_snoc s c : Py.is_empty (s +:+ String c EmptyString) = false.
Proof. by destruct s. Qed.

(** Every token of [split] has at least one character. *)
Lemma split_ws_tokens cur s :
  Forall (fun w => Py.is_empty w = false) (Py.split_ws cur s).
Proof.
  revert cur. induction s as [|c s IH]; intros cur; simpl.
  - destruct (Py.is_empty cur) eqn:E; [constructor | by repeat constructor].
  - destruct (Py.isspace c).
    + destruct (Py.is_empty cur) eqn:E; [apply IH | constructor; [done | apply IH]].
    + apply IH.
Qed.

Lemma split_tokens_nonempty s w : w ∈ Py.split s -> Py.is_empty w = false.
Proof.
  intros Hw. pose proof (split_ws_tokens EmptyString s) as HF.
  rewrite Forall_forall in HF. by apply HF.
Qed.

(** [s[:-1]] drops exactly the last character. *)
Lemma substring_all s : String.substring 0 (String.length s) s = s.
Proof. induction s; simpl; congruence. Qed.

Lemma substring_snoc s c :
  String.substring 0 (String.length s) (s +:+ String c EmptyString) = s.
Proof. induction s; rewrite ?append_cons; simpl; congruence. Qed.

Lemma length_snoc s c :
  String.length (s +:+ String c EmptyString) = S (String.length s).
Proof. induction s; rewrite ?append_cons; simpl; congruence. Qed.

Lemma slice_to_m1_snoc s c : Py.slice_to_m1 (s +:+ String c EmptyString) = s.
Proof.
  unfold Py.slice_to_m1. rewrite length_snoc. simpl.
  rewrite Nat.sub_0_r. apply substring_snoc.
Qed.

(** [split_on]: the first piece is what precedes the first separator. *)
Lemma split_on_from_clean sep cur s :
  occurs sep s = false -> Py.split_on_from sep cur s = [cur +:+ s].
Proof.
  revert cur. induction s as [|c s IH]; intros cur; simpl.
  - by rewrite append_empty_r.
  - intros H. apply orb_false_iff in H as [Hc Hs]. rewrite Hc.
    rewrite IH by done. by rewrite append_assoc, append_cons.
Qed.

Lemma split_on_from_first sep cur a b :
  occurs sep a = false ->
  Py.split_on_from sep cur (a +:+ String sep b) =
    (cur +:+ a) :: Py.split_on_from sep EmptyString b.
Proof.
  revert cur. induction a as [|c a IH]; intros cur;
    rewrite ?append_cons, ?append_empty_l; simpl.
  - intros _. rewrite Ascii.eqb_refl. by rewrite append_empty_r.
  - intros H. apply orb_false_iff in H as [Hc Hs]. rewrite Hc.
    rewrite IH by done. by rewrite append_assoc, append_cons.
Qed.

(** ** Default device: the scan over token pairs *)

Lemma follows_dev_step w x ws :
  follows_dev (w :: x :: ws) = String.eqb w "dev" || follows_dev (x :: ws).
Proof. reflexivity. Qed.

(** [follows_dev] says what it should: the list can be cut at a [dev]
    that has a successor. *)
Lemma follows_dev_cut words :
  follows_dev words = true <->
  exists pre nex post, words = pre ++ "dev" :: nex :: post.
Proof.
  induction words as [|w ws IH].
  - split; [done | by intros ([|??] & ? & ? & ?)].
  - destruct ws as [|x ws'].
    + split; [done | by intros ([|?[|??]] & ? & ? & ?)].
    + rewrite follows_dev_step, orb_true_iff, IH. split.
      * intros [Hw|(pre & nex & post & E)].
        -- apply String.eqb_eq in Hw as ->. by exists [], x, ws'.
        -- exists (w :: pre), nex, post. simpl. by rewrite E.
      * intros ([|p pre] & nex & post & E); simplify_eq/=.
        -- by left.
        -- right. by exists pre, nex, post.
Qed.

Lemma device_loop_skip words acc :
  follows_dev words = false ->
  device_loop (zip words (drop 1 words)) acc = acc.
Proof.
  induction words as [|w ws IH]; intros Hno; [done|].
  destruct ws as [|x ws']; [done|].
  rewrite follows_dev_step in Hno. apply orb_false_iff in Hno as [Hw Hrest].
  simpl. rewrite Hw. by apply IH.
Qed.

Lemma device_loop_hit pre nex post acc :
  device_loop (zip (pre ++ "dev" :: nex :: post)
                   (drop 1 (pre ++ "dev" :: nex :: post))) acc =
  device_loop (zip (nex :: post) (drop 1 (nex :: post))) (Some nex).
Proof.
  revert acc. induction pre as [|p pre IH]; intros acc; [done|].
  specialize (IH (if String.eqb p "dev"
                  then Some (hd "dev" (pre ++ "dev" :: nex :: post)) else acc)).
  destruct pre as [|q pre']; simpl in *; exact IH.
Qed.

Lemma dev_candidates_step w x ws :
  dev_candidates (w :: x :: ws) =
    if String.eqb w "dev" then x :: dev_candidates (x :: ws)
    else dev_candidates (x :: ws).
Proof. reflexivity. Qed.

(** The scan returns the last element of the candidate list. *)
Lemma device_loop_candidates words acc :
  device_loop (zip words (drop 1 words)) acc =
    match last (dev_candidates words) with
    | Some d => Some d
    | None => acc
    end.
Proof.
  revert acc. induction words as [|w ws IH]; intros acc; [done|].
  destruct ws as [|x ws']; [done|].
  change (device_loop (zip (w :: x :: ws') (drop 1 (w :: x :: ws'))) acc)
    with (device_loop (zip (x :: ws') (drop 1 (x :: ws')))
            (if String.eqb w "dev" then Some x else acc)).
  rewrite IH, dev_candidates_step. clear IH.
  destruct (String.eqb w "dev"); [|done].
  destruct (dev_candidates (x :: ws')) as [|c cs] eqn:E; [done|].
  rewrite last_cons_cons. destruct (last (c :: cs)) eqn:L; [done|].
  by apply last_None in L.
Qed.

Lemma no_dev_no_follower words : "dev" ∉ words -> follows_dev words = false.
Proof.
  intros Hno. apply not_true_is_false. rewrite follows_dev_cut.
  intros (pre & nex & post & ->). apply Hno.
  apply elem_of_app. right. left.
Qed.

Section DefaultDevice.
Variable host : list string -> completed.
Variables (t : trace) (output : string).
Hypothesis route_ok : host route_cmd = Exited 0 output.

Lemma get_default_device_scan :
  _get_default_device host t =
    (match device_loop (zip (Py.split output) (drop 1 (Py.split output))) None with
     | Some d =>
         if Py.is_empty d then Raise (ValueError "No default device found")
         else Ok d
     | None => Raise (ValueError "No default device found")
     end, t ++ [Spawn route_cmd]).
Proof.
  unfold _get_default_device.
  rewrite (bind_ok _ _ _ _ _ (check_output_zero host _ _ t route_ok)).
  cbv zeta.
  destruct (device_loop _ None) as [d|]; [|done].
  by destruct (Py.is_empty d).
Qed.

(** The code against the rule in the specification's words: the result
    is the last candidate, and there is an error when there is none. *)
Lemma get_default_device_spec :
  _get_default_device host t =
    (match last (dev_candidates (Py.split output)) with
     | Some d => Ok d
     | None => Raise (ValueError "No default device found")
     end, t ++ [Spawn route_cmd]).
Proof.
  rewrite get_default_device_scan, device_loop_candidates.
  destruct (last (dev_candidates (Py.split output))) as [d|] eqn:L; [|done].
  assert (Hin : d ∈ Py.split output).
  { apply last_Some_elem_of in L. clear -L.
    induction (Py.split output) as [|w ws IH]; [by apply elem_of_nil in L|].
    destruct ws as [|x ws']; [by apply elem_of_nil in L|].
    rewrite dev_candidates_step in L.
    destruct (String.eqb w "dev").
    - apply elem_of_cons in L as [->|L]; [right; left | right; by apply IH].
    - right. by apply IH. }
  by rewrite (split_tokens_nonempty _ _ Hin).
Qed.
End DefaultDevice.

(** ** IP address: the scan over lines *)

Lemma ip_loop_cons line rest :
  ip_loop (line :: rest) =
    if negb (inet_line line) then ip_loop rest
    else match Py.split (Py.strip line) !! 1%nat with
         | None => Raise IndexError
         | Some field =>
             match Py.split_on SLASH field !! 0%nat with
             | None => Raise IndexError
             | Some ip => Ok (Some ip)
             end
         end.
Proof. reflexivity. Qed.

Lemma ip_loop_skip pre rest :
  Forall (fun l => inet_line l = false) pre ->
  ip_loop (pre ++ rest) = ip_loop rest.
Proof.
  induction 1 as [|l pre Hl _ IH]; [done|].
  rewrite <- app_comm_cons, ip_loop_cons. by rewrite Hl.
Qed.

Lemma ip_loop_none lines :
  Forall (fun l => inet_line l = false) lines -> ip_loop lines = Ok None.
Proof.
  intros H. rewrite <- (app_nil_r lines). by rewrite ip_loop_skip.
Qed.

Lemma split_on_slash_head field addr :
  occurs SLASH addr = false ->
  field = addr ∨ (exists plen, field = addr +:+ String SLASH plen) ->
  Py.split_on SLASH field !! 0%nat = Some addr.
Proof.
  intros Hclean [->|[plen ->]]; unfold Py.split_on.
  - by rewrite split_on_from_clean.
  - by rewrite split_on_from_first.
Qed.

Section IpOfDevice.
Variable host : list string -> completed.
Variables (t : trace) (device output : string).
Hypothesis addr_ok : host (addr_cmd device) = Exited 0 output.

Lemma ip_of_device_scan :
  _ip_of_device host device t =
    (match ip_loop (Py.split_on LF output) with
     | Ok (Some a) =>
         if Py.is_empty a
         then Raise (ValueError ("ip not found for " +:+ device))
         else Ok a
     | Ok None => Raise (ValueError ("ip not found for " +:+ device))
     | Raise e => Raise e
     end, t ++ [Spawn (addr_cmd device)]).
Proof.
  unfold _ip_of_device.
  rewrite (bind_ok _ _ _ _ _ (check_output_zero host _ _ t addr_ok)).
  unfold bind, lift.
  destruct (ip_loop _) as [[a|]|e]; [|done|done].
  by destruct (Py.is_empty a).
Qed.
End IpOfDevice.

(** ** The parsers *)

(** C1: the route output is split into whitespace tokens; the token after
    a token [dev] is a candidate; the device returned is the candidate of
    the last [dev] that has a token after it. *)
Theorem get_default_device_last_match
    (host : list string -> completed) (t : trace)
    (output : string) (pre : list string) (nex : string) (post : list string) :
  host route_cmd = Exited 0 output ->
  Py.split output = pre ++ "dev" :: nex :: post ->
  follows_dev (nex :: post) = false ->
  _get_default_device host t = (Ok nex, t ++ [Spawn route_cmd]).
Proof.
  intros Hrun Hwords Hlast.
  rewrite (get_default_device_scan host t output Hrun), Hwords.
  rewrite device_loop_hit, device_loop_skip by done.
  assert (Hin : nex ∈ Py.split output).
  { rewrite Hwords. apply elem_of_app. right. right. left. }
  by rewrite (split_tokens_nonempty _ _ Hin).
Qed.

(** C3: without a [dev] token in the route output the device lookup
    raises its not-found error, and without an [inet] line in the address
    output the address lookup raises its not-found error. *)
Theorem resolution_not_found
    (host : list string -> completed) (t : trace) (device : string) :
  (forall output,
     host route_cmd = Exited 0 output ->
     "dev" ∉ Py.split output ->
     _get_default_device host t =
       (Raise (ValueError "No default device found"), t ++ [Spawn route_cmd]))
  /\
  (forall output,
     host (addr_cmd device) = Exited 0 output ->
     Forall (fun line => inet_line line = false) (Py.split_on LF output) ->
     _ip_of_device host device t =
       (Raise (ValueError ("ip not found for " +:+ device)),
        t ++ [Spawn (addr_cmd device)])).
Proof.
  split; intros output Hrun Hno.
  - rewrite (get_default_device_scan host t output Hrun).
    by rewrite device_loop_skip by by apply no_dev_no_follower.
  - rewrite (ip_of_device_scan host t device output Hrun).
    by rewrite ip_loop_none.
Qed.

(** C2, amended: the first line that, trimmed, starts with [inet] decides;
    its second field, cut at the first slash, is returned when it is not
    empty, and an empty one raises the not-found error. *)
Theorem ip_of_device_first_match
    (host : list string -> completed) (t : trace) (device output : string)
    (pre : list string) (line : string) (post : list string)
    (field addr : string) :
  host (addr_cmd device) = Exited 0 output ->
  Py.split_on LF output = pre ++ line :: post ->
  Forall (fun l => inet_line l = false) pre ->
  inet_line line = true ->
  Py.split (Py.strip line) !! 1%nat = Some field ->
  occurs SLASH addr = false ->
  field = addr ∨ (exists plen, field = addr +:+ String SLASH plen) ->
  _ip_of_device host device t =
    (if Py.is_empty addr
     then Raise (ValueError ("ip not found for " +:+ device))
     else Ok addr,
     t ++ [Spawn (addr_cmd device)]).
Proof.
  intros Hrun Hlines Hpre Hline Hfield Hclean Hcut.
  rewrite (ip_of_device_scan host t device output Hrun), Hlines.
  rewrite ip_loop_skip, ip_loop_cons, Hline, Hfield by done.
  by rewrite (split_on_slash_head field addr Hclean Hcut).
Qed.

(** ** The handler, call by call *)

Lemma get_default_device_frame host t :
  _get_default_device host t =
    (fst (_get_default_device host []), t ++ [Spawn route_cmd]).
Proof.
  unfold _get_default_device, check_output, bind, emit, ret, raise.
  destruct (host route_cmd) as [[| |] out|]; try reflexivity.
  cbv zeta. destruct (device_loop _ None) as [d|]; [|reflexivity].
  by destruct (Py.is_empty d).
Qed.

Lemma ip_of_device_frame host device t :
  _ip_of_device host device t =
    (fst (_ip_of_device host device []), t ++ [Spawn (addr_cmd device)]).
Proof.
  unfold _ip_of_device, check_output, bind, emit, ret, raise, lift.
  destruct (host (addr_cmd device)) as [[| |] out|]; try reflexivity.
  destruct (ip_loop _) as [[a|]|e]; try reflexivity.
  by destruct (Py.is_empty a).
Qed.

Lemma qr_path_ok svg_of data tag t :
  svg_tag svg_of data = Some tag ->
  _qr_path svg_of data t = (Ok tag, t ++ [QrEncode data]).
Proof. unfold svg_tag. intros H. unfold _qr_path, bind, emit. by rewrite H. Qed.

Lemma qr_path_trace svg_of data t :
  snd (_qr_path svg_of data t) = t ++ [QrEncode data].
Proof.
  unfold _qr_path, bind, emit. by destruct (Py.split_on LF (svg_of data) !! 1%nat).
Qed.

(** ** The page *)

(** C4: a request of a user who is not an admin is answered by a redirect
    to [login], and no external call is made on the way. *)
Theorem index_unauthorized
    (host : list string -> completed) (svg_of : string -> string)
    (self : NetworkInfo) (request : WSGIRequest) (t : trace) :
  is_admin (base self) (user request) = false ->
  index host svg_of self request t = (Ok (redirect "login"), t).
Proof. intros H. unfold index. by rewrite H. Qed.

Lemma get_default_device_last_match_witness :
  _get_default_device
    (sample_host no_wifi NotStarted route_two_defaults addr_wlan0) [] =
  (Ok "wlan0", [Spawn route_cmd]).
Proof.
  apply (get_default_device_last_match _ [] route_two_defaults
           ["default"; "via"; "192.168.1.1"; "dev"; "eth0"; "proto"; "dhcp";
            "metric"; "100"; "default"; "via"; "192.168.1.1"]
           "wlan0" ["proto"; "dhcp"; "metric"; "600"]); reflexivity.
Defined.

Lemma resolution_not_found_witness :
  _get_default_device
    (sample_host no_wifi NotStarted route_none addr_no_inet) [] =
    (Raise (ValueError "No default device found"), [Spawn route_cmd])
  /\
  _ip_of_device
    (sample_host no_wifi NotStarted route_none addr_no_inet) "wlan0" [] =
    (Raise (ValueError "ip not found for wlan0"), [Spawn (addr_cmd "wlan0")]).
Proof.
  split.
  - apply (proj1 (resolution_not_found _ [] "wlan0") route_none).
    + reflexivity.
    + apply (bool_decide_unpack _). vm_compute. exact I.
  - apply (proj2 (resolution_not_found _ [] "wlan0") addr_no_inet).
    + reflexivity.
    + apply (bool_decide_unpack _). vm_compute. exact I.
Defined.

Lemma ip_of_device_first_match_witness :
  _ip_of_device
    (sample_host no_wifi NotStarted route_two_defaults addr_wlan0) "wlan0" [] =
  (Ok "192.168.1.5", [Spawn (addr_cmd "wlan0")]).
Proof.
  apply (ip_of_device_first_match _ [] "wlan0" addr_wlan0
    ["3: wlan0: <BROADCAST,MULTICAST,UP,LOWER_UP> mtu 1500 qdisc noqueue state UP"]
    "    inet 192.168.1.5/24 brd 192.168.1.255 scope global dynamic wlan0"
    ["    inet 10.0.0.7/8 scope global secondary wlan0"; ""]
    "192.168.1.5/24" "192.168.1.5").
  - reflexivity.
  - reflexivity.
  - repeat constructor.
  - reflexivity.
  - reflexivity.
  - reflexivity.
  - right. exists "24". reflexivity.
Defined.

(** The claim C2 as worded fails where the second field has nothing before
    its slash: the field cut at the slash is the empty string, and the
    lookup raises instead of returning it. *)
Lemma ip_of_device_bare_prefix_counterexample :
  let host := sample_host no_wifi NotStarted route_two_defaults addr_bare_prefix in
  let line := "    inet /24 brd 192.168.1.255 scope global wlan0" in
  host (addr_cmd "wlan0") = Exited 0 addr_bare_prefix
  /\ Py.split_on LF addr_bare_prefix =
       ["3: wlan0: <BROADCAST,MULTICAST,UP,LOWER_UP> mtu 1500 qdisc noqueue state UP";
        line; ""]
  /\ inet_line
       "3: wlan0: <BROADCAST,MULTICAST,UP,LOWER_UP> mtu 1500 qdisc noqueue state UP"
     = false
  /\ inet_line line = true
  /\ Py.split (Py.strip line) !! 1%nat = Some "/24"
  /\ Py.split_on SLASH "/24" !! 0%nat = Some ""
  /\ fst (_ip_of_device host "wlan0" []) ≠ Ok ""
  /\ fst (_ip_of_device host "wlan0" []) =
       Raise (ValueError "ip not found for wlan0").
Proof. vm_compute. repeat split; congruence. Qed.

(** A matching line with a single field stops the loop with the
    [IndexError] of [line.split()[1]], whatever the later lines hold. *)
Lemma ip_loop_lone_inet :
  ip_loop ["2: eth0: <UP>"; "  inet  "; "inet 10.0.0.1/8"] = Raise IndexError.
Proof. reflexivity. Qed.

Lemma index_unauthorized_witness :
  index (sample_host NotStarted NotStarted "" "") sample_svg
        sample_self guest_request [] = (Ok (redirect "login"), []).
Proof. apply (index_unauthorized _ _ sample_self guest_request []). reflexivity. Defined.

(** ** Traces only grow *)

Section Extends.
Context {A B : Type}.

Lemma extends_ret (a : A) : extends (ret a).
Proof. intros t. exists []. by rewrite app_nil_r. Qed.

Lemma extends_raise (e : exn) : extends (@raise A e).
Proof. intros t. exists []. by rewrite app_nil_r. Qed.

Lemma extends_lift (r : result A) : extends (lift r).
Proof. intros t. exists []. by rewrite app_nil_r. Qed.

Lemma extends_bind (m : M A) (k : A -> M B) :
  extends m -> (forall a, extends (k a)) -> extends (bind m k).
Proof.
  intros Hm Hk t. unfold bind. destruct (Hm t) as [c1 E1].
  destruct (m t) as [[a|e] t1]; simpl in E1; subst t1.
  - destruct (Hk a (t ++ c1)) as [c2 E2]. exists (c1 ++ c2).
    by rewrite E2, app_assoc.
  - by exists c1.
Qed.

Lemma extends_try (body handler : M A) :
  extends body -> extends handler ->
  extends (try_except_CalledProcessError body handler).
Proof.
  intros Hb Hh t. unfold try_except_CalledProcessError.
  destruct (Hb t) as [c1 E1].
  destruct (body t) as [[a|e] t1]; simpl in E1; subst t1; [by exists c1|].
  destruct e; try by exists c1.
  destruct (Hh (t ++ c1)) as [c2 E2]. exists (c1 ++ c2).
  by rewrite E2, app_assoc.
Qed.
End Extends.

Lemma extends_check_output host argv : extends (check_output host argv).
Proof. intros t. exists [Spawn argv]. apply check_output_trace. Qed.

Lemma extends_qr_path svg_of data : extends (_qr_path svg_of data).
Proof. intros t. exists [QrEncode data]. apply qr_path_trace. Qed.

Lemma extends_wifi_password host active name :
  extends (wifi_password host active name).
Proof.
  unfold wifi_password. destruct active; [|apply extends_ret].
  destruct name; [|apply extends_raise].
  apply extends_try; [|apply extends_ret].
  apply extends_bind; [apply extends_check_output | intros; apply extends_ret].
Qed.

Lemma extends_index_page svg_of request ctx f :
  extends (index_page svg_of request ctx f).
Proof.
  unfold index_page.
  apply extends_bind; [apply extends_qr_path | intros wifi_qr].
  apply extends_bind; [apply extends_qr_path | intros url_qr].
  apply extends_ret.
Qed.

(** ** The Wi-Fi status step *)

Section WifiStatus.
Variable host : list string -> completed.
Variable t : trace.

Lemma wifi_status_trace : snd (wifi_status host t) = t ++ [Spawn iwgetid_cmd].
Proof.
  unfold wifi_status, try_except_CalledProcessError, bind, check_output,
    emit, ret, raise.
  destruct (host iwgetid_cmd) as [[| |] out|]; reflexivity.
Qed.

Lemma wifi_status_on out :
  host iwgetid_cmd = Exited 0 out ->
  wifi_status host t =
    (Ok (Some (Py.slice_to_m1 out), true), t ++ [Spawn iwgetid_cmd]).
Proof.
  intros H. unfold wifi_status.
  apply try_ok. by rewrite (bind_ok _ _ _ _ _ (check_output_zero host _ _ t H)).
Qed.

Lemma wifi_status_off rc out :
  host iwgetid_cmd = Exited rc out -> rc ≠ 0%Z ->
  wifi_status host t = (Ok (None, false), t ++ [Spawn iwgetid_cmd]).
Proof.
  intros H Hrc. unfold wifi_status.
  erewrite try_caught; [reflexivity|].
  by rewrite (bind_raise _ _ _ _ _ (check_output_nonzero host _ _ _ t H Hrc)).
Qed.

Lemma wifi_status_exited rc out :
  host iwgetid_cmd = Exited rc out ->
  exists status, wifi_status host t = (Ok status, t ++ [Spawn iwgetid_cmd]).
Proof.
  intros H. destruct (decide (rc = 0%Z)) as [->|Hrc].
  - eexists. by apply wifi_status_on.
  - eexists. by eapply wifi_status_off.
Qed.
End WifiStatus.

(** ** The password step *)

Section WifiPassword.
Variable host : list string -> completed.
Variables (t : trace) (name : string).

Lemma wifi_password_found pw :
  host (password_cmd name) = Exited 0 pw ->
  wifi_password host true (Some name) t =
    (Ok (Some pw), t ++ [Spawn (password_cmd name)]).
Proof.
  intros H. unfold wifi_password.
  apply try_ok. by rewrite (bind_ok _ _ _ _ _ (check_output_zero host _ _ t H)).
Qed.

Lemma wifi_password_missing rc pw :
  host (password_cmd name) = Exited rc pw -> rc ≠ 0%Z ->
  wifi_password host true (Some name) t =
    (Ok None, t ++ [Spawn (password_cmd name)]).
Proof.
  intros H Hrc. unfold wifi_password.
  erewrite try_caught; [reflexivity|].
  by rewrite (bind_raise _ _ _ _ _ (check_output_nonzero host _ _ _ t H Hrc)).
Qed.

Lemma wifi_password_trace :
  snd (wifi_password host true (Some name) t) = t ++ [Spawn (password_cmd name)].
Proof.
  unfold wifi_password, try_except_CalledProcessError, bind, check_output,
    emit, ret, raise.
  destruct (host (password_cmd name)) as [[| |] out|]; reflexivity.
Qed.

Lemma wifi_password_skipped ssid :
  wifi_password host false ssid t = (Ok None, t).
Proof. reflexivity. Qed.
End WifiPassword.

(** ** The probe and the page on a host whose network is up *)

Section NetworkUp.
Variable host : list string -> completed.
Variable svg_of : string -> string.
Variables (dev addr : string).
Hypothesis device_found : fst (_get_default_device host []) = Ok dev.
Hypothesis ip_found : fst (_ip_of_device host dev []) = Ok addr.

Lemma get_default_device_up t :
  _get_default_device host t = (Ok dev, t ++ [Spawn route_cmd]).
Proof. by rewrite get_default_device_frame, device_found. Qed.

Lemma ip_of_device_up t :
  _ip_of_device host dev t = (Ok addr, t ++ [Spawn (addr_cmd dev)]).
Proof. by rewrite ip_of_device_frame, ip_found. Qed.

(** From the Wi-Fi status and the outcome of the password step to the
    facts. *)
Lemma index_probe_up t name active pw t' :
  wifi_status host t = (Ok (name, active), t ++ [Spawn iwgetid_cmd]) ->
  wifi_password host active name
    (t ++ [Spawn iwgetid_cmd; Spawn route_cmd; Spawn (addr_cmd dev)]) =
    (Ok pw, t') ->
  index_probe host t =
    (Ok {| ssid := name; password := pw; wifi_active := active;
           device := dev; ip := addr |}, t').
Proof.
  intros Hstatus Hpw. unfold index_probe.
  rewrite (bind_ok _ _ _ _ _ Hstatus). cbv zeta. simpl fst. simpl snd.
  rewrite (bind_ok _ _ _ _ _ (get_default_device_up _)).
  rewrite (bind_ok _ _ _ _ _ (ip_of_device_up _)).
  rewrite <- !app_assoc. simpl app.
  by rewrite (bind_ok _ _ _ _ _ Hpw).
Qed.

Lemma index_page_up request ctx f tag_wifi tag_url t :
  svg_tag svg_of (wifi_payload (ssid f) (password f)) = Some tag_wifi ->
  svg_tag svg_of (page_url (ip f)) = Some tag_url ->
  index_page svg_of request ctx f t =
    (Ok (render request "network_info.html"
           (template_context ctx f tag_wifi (page_url (ip f)) tag_url)),
     t ++ [QrEncode (wifi_payload (ssid f) (password f));
           QrEncode (page_url (ip f))]).
Proof.
  intros Hwifi Hurl. unfold index_page.
  rewrite (bind_ok _ _ _ _ _ (qr_path_ok _ _ _ _ Hwifi)). cbv zeta.
  rewrite (bind_ok _ _ _ _ _ (qr_path_ok _ _ _ _ Hurl)).
  by rewrite <- app_assoc.
Qed.

(** The whole handler, for an admin, once the probe has its facts. *)
Lemma index_up self request f tag_wifi tag_url t t' :
  is_admin (base self) (user request) = true ->
  index_probe host t = (Ok f, t') ->
  svg_tag svg_of (wifi_payload (ssid f) (password f)) = Some tag_wifi ->
  svg_tag svg_of (page_url (ip f)) = Some tag_url ->
  index host svg_of self request t =
    (Ok (render request "network_info.html"
           (template_context (context (base self) request) f
              tag_wifi (page_url (ip f)) tag_url)),
     t' ++ [QrEncode (wifi_payload (ssid f) (password f));
            QrEncode (page_url (ip f))]).
Proof.
  intros Hadmin Hprobe Hwifi Hurl. unfold index. rewrite Hadmin. cbn [negb].
  cbv zeta. rewrite (bind_ok _ _ _ _ _ Hprobe).
  by apply index_page_up.
Qed.

End NetworkUp.

(** The three Wi-Fi keys of the template context. *)
Lemma template_context_wifi_keys ctx f wifi_qr url url_qr :
  template_context ctx f wifi_qr url url_qr !! "ssid" =
    Some (if wifi_active f then optional_str (ssid f) else PyNone)
  /\ template_context ctx f wifi_qr url url_qr !! "password" =
    Some (if wifi_active f then optional_str (password f) else PyNone)
  /\ template_context ctx f wifi_qr url url_qr !! "wifi_qr" =
    Some (if wifi_active f then PyStr wifi_qr else PyNone).
Proof.
  unfold template_context. destruct (wifi_active f); by simplify_map_eq.
Qed.

(** The payload with no password, spelled out. *)
Lemma wifi_payload_no_password s :
  wifi_payload (Some s) None = "WIFI:S:" +:+ s +:+ ";T:WPA;P:None;;".
Proof. reflexivity. Qed.

(** ** The Wi-Fi branches of the page *)

Section AdminPage.
Variable host : list string -> completed.
Variable svg_of : string -> string.
Variables (self : NetworkInfo) (request : WSGIRequest) (t : trace).
Variables (dev addr : string).
Hypothesis admin : is_admin (base self) (user request) = true.
Hypothesis device_found : fst (_get_default_device host []) = Ok dev.
Hypothesis ip_found : fst (_ip_of_device host dev []) = Ok addr.

Lemma index_probe_wifi_off rc out :
  host iwgetid_cmd = Exited rc out -> rc ≠ 0%Z ->
  index_probe host t =
    (Ok {| ssid := None; password := None; wifi_active := false;
           device := dev; ip := addr |},
     t ++ [Spawn iwgetid_cmd; Spawn route_cmd; Spawn (addr_cmd dev)]).
Proof.
  intros Hrun Hrc.
  apply (index_probe_up host dev addr device_found ip_found t None false None).
  - by apply (wifi_status_off host t rc out).
  - reflexivity.
Qed.

Lemma index_probe_no_password out rc pw :
  host iwgetid_cmd = Exited 0 out ->
  host (password_cmd (Py.slice_to_m1 out)) = Exited rc pw -> rc ≠ 0%Z ->
  index_probe host t =
    (Ok {| ssid := Some (Py.slice_to_m1 out); password := None;
           wifi_active := true; device := dev; ip := addr |},
     t ++ [Spawn iwgetid_cmd; Spawn route_cmd; Spawn (addr_cmd dev);
           Spawn (password_cmd (Py.slice_to_m1 out))]).
Proof.
  intros Hrun Hhelper Hrc.
  apply (index_probe_up host dev addr device_found ip_found t
           (Some (Py.slice_to_m1 out)) true None).
  - by apply wifi_status_on.
  - rewrite (wifi_password_missing host _ _ rc pw Hhelper Hrc).
    by rewrite <- app_assoc.
Qed.

Lemma index_probe_password out pw :
  host iwgetid_cmd = Exited 0 out ->
  host (password_cmd (Py.slice_to_m1 out)) = Exited 0 pw ->
  index_probe host t =
    (Ok {| ssid := Some (Py.slice_to_m1 out); password := Some pw;
           wifi_active := true; device := dev; ip := addr |},
     t ++ [Spawn iwgetid_cmd; Spawn route_cmd; Spawn (addr_cmd dev);
           Spawn (password_cmd (Py.slice_to_m1 out))]).
Proof.
  intros Hrun Hhelper.
  apply (index_probe_up host dev addr device_found ip_found t
           (Some (Py.slice_to_m1 out)) true (Some pw)).
  - by apply wifi_status_on.
  - rewrite (wifi_password_found host _ _ pw Hhelper).
    by rewrite <- app_assoc.
Qed.
End AdminPage.

(** C5: a non-zero exit of [iwgetid] leaves [wifi_active] false and
    [ssid], [password] at [None]; a non-zero exit of the password helper
    leaves [password] at [None]; in both cases the handler goes on and
    renders the page. *)
Theorem wifi_failures_absorbed
    (host : list string -> completed) (svg_of : string -> string)
    (self : NetworkInfo) (request : WSGIRequest) (t : trace)
    (dev addr : string) :
  is_admin (base self) (user request) = true ->
  fst (_get_default_device host []) = Ok dev ->
  fst (_ip_of_device host dev []) = Ok addr ->
  (forall rc out,
     host iwgetid_cmd = Exited rc out -> rc ≠ 0%Z ->
     index_probe host t =
       (Ok {| ssid := None; password := None; wifi_active := false;
              device := dev; ip := addr |},
        t ++ [Spawn iwgetid_cmd; Spawn route_cmd; Spawn (addr_cmd dev)])
     /\ forall tag_wifi tag_url,
          svg_tag svg_of (wifi_payload None None) = Some tag_wifi ->
          svg_tag svg_of (page_url addr) = Some tag_url ->
          exists ctx calls,
            index host svg_of self request t =
              (Ok (render request "network_info.html" ctx), t ++ calls)
            /\ ctx !! "ssid" = Some PyNone
            /\ ctx !! "password" = Some PyNone)
  /\
  (forall out rc pw,
     host iwgetid_cmd = Exited 0 out ->
     host (password_cmd (Py.slice_to_m1 out)) = Exited rc pw -> rc ≠ 0%Z ->
     index_probe host t =
       (Ok {| ssid := Some (Py.slice_to_m1 out); password := None;
              wifi_active := true; device := dev; ip := addr |},
        t ++ [Spawn iwgetid_cmd; Spawn route_cmd; Spawn (addr_cmd dev);
              Spawn (password_cmd (Py.slice_to_m1 out))])
     /\ forall tag_wifi tag_url,
          svg_tag svg_of (wifi_payload (Some (Py.slice_to_m1 out)) None)
            = Some tag_wifi ->
          svg_tag svg_of (page_url addr) = Some tag_url ->
          exists ctx calls,
            index host svg_of self request t =
              (Ok (render request "network_info.html" ctx), t ++ calls)
            /\ ctx !! "ssid" = Some (PyStr (Py.slice_to_m1 out))
            /\ ctx !! "password" = Some PyNone).
Proof.
  intros Hadmin Hdev Hip. split.
  - intros rc out Hrun Hrc.
    pose proof (index_probe_wifi_off host t dev addr Hdev Hip rc out Hrun Hrc)
      as Hprobe.
    split; [exact Hprobe|]. intros tag_wifi tag_url Hwifi Hurl.
    eexists _, _. split.
    + rewrite (index_up host svg_of self request _ tag_wifi tag_url t _
                 Hadmin Hprobe Hwifi Hurl).
      by rewrite <- app_assoc.
    + split; apply template_context_wifi_keys.
  - intros out rc pw Hrun Hhelper Hrc.
    pose proof (index_probe_no_password host t dev addr Hdev Hip out rc pw
                  Hrun Hhelper Hrc) as Hprobe.
    split; [exact Hprobe|]. intros tag_wifi tag_url Hwifi Hurl.
    eexists _, _. split.
    + rewrite (index_up host svg_of self request _ tag_wifi tag_url t _
                 Hadmin Hprobe Hwifi Hurl).
      by rewrite <- app_assoc.
    + split; apply template_context_wifi_keys.
Qed.

Lemma wifi_failures_absorbed_witness :
  (index_probe wired_host [] =
     (Ok {| ssid := None; password := None; wifi_active := false;
            device := "eth0"; ip := "192.168.1.7" |},
      [Spawn iwgetid_cmd; Spawn route_cmd; Spawn (addr_cmd "eth0")])
   /\ exists ctx calls,
        index wired_host sample_svg sample_self admin_request [] =
          (Ok (render admin_request "network_info.html" ctx), calls)
        /\ ctx !! "ssid" = Some PyNone /\ ctx !! "password" = Some PyNone)
  /\
  (index_probe (wifi_host (Exited 1 "")) [] =
     (Ok {| ssid := Some "MyNet"; password := None; wifi_active := true;
            device := "wlan0"; ip := "192.168.1.5" |},
      [Spawn iwgetid_cmd; Spawn route_cmd; Spawn (addr_cmd "wlan0");
       Spawn (password_cmd "MyNet")])
   /\ exists ctx calls,
        index (wifi_host (Exited 1 "")) sample_svg sample_self admin_request [] =
          (Ok (render admin_request "network_info.html" ctx), calls)
        /\ ctx !! "ssid" = Some (PyStr "MyNet")
        /\ ctx !! "password" = Some PyNone).
Proof.
  split.
  - destruct (proj1 (wifi_failures_absorbed wired_host sample_svg sample_self
                       admin_request [] "eth0" "192.168.1.7"
                       eq_refl eq_refl eq_refl) 255%Z "" eq_refl)
      as [Hfacts Hpage]; [discriminate|].
    split; [exact Hfacts|].
    exact (Hpage "<svg><path id='WIFI:S:None;T:WPA;P:None;;'/></svg>"
                 "<svg><path id='http://192.168.1.7/'/></svg>" eq_refl eq_refl).
  - destruct (proj2 (wifi_failures_absorbed (wifi_host (Exited 1 "")) sample_svg
                       sample_self admin_request [] "wlan0" "192.168.1.5"
                       eq_refl eq_refl eq_refl)
                ("MyNet" +:+ NL) 1%Z "" eq_refl eq_refl)
      as [Hfacts Hpage]; [discriminate|].
    split; [exact Hfacts|].
    exact (Hpage "<svg><path id='WIFI:S:MyNet;T:WPA;P:None;;'/></svg>"
                 "<svg><path id='http://192.168.1.5/'/></svg>" eq_refl eq_refl).
Defined.

(** C6, amended: when [iwgetid] exits non-zero the QR encoder is still
    called on the Wi-Fi payload, which then reads
    [WIFI:S:None;T:WPA;P:None;;]; its result is dropped, and the rendered
    context has [ssid], [password] and [wifi_qr] all [None]. *)
Theorem index_wifi_inactive
    (host : list string -> completed) (svg_of : string -> string)
    (self : NetworkInfo) (request : WSGIRequest) (t : trace)
    (dev addr : string) (rc : Z) (out tag_wifi tag_url : string) :
  is_admin (base self) (user request) = true ->
  fst (_get_default_device host []) = Ok dev ->
  fst (_ip_of_device host dev []) = Ok addr ->
  host iwgetid_cmd = Exited rc out -> rc ≠ 0%Z ->
  svg_tag svg_of "WIFI:S:None;T:WPA;P:None;;" = Some tag_wifi ->
  svg_tag svg_of (page_url addr) = Some tag_url ->
  exists ctx,
    index host svg_of self request t =
      (Ok (render request "network_info.html" ctx),
       t ++ [Spawn iwgetid_cmd; Spawn route_cmd; Spawn (addr_cmd dev);
             QrEncode "WIFI:S:None;T:WPA;P:None;;"; QrEncode (page_url addr)])
    /\ ctx !! "ssid" = Some PyNone
    /\ ctx !! "password" = Some PyNone
    /\ ctx !! "wifi_qr" = Some PyNone.
Proof.
  intros Hadmin Hdev Hip Hrun Hrc Hwifi Hurl.
  pose proof (index_probe_wifi_off host t dev addr Hdev Hip rc out Hrun Hrc)
    as Hprobe.
  eexists. split.
  - rewrite (index_up host svg_of self request _ tag_wifi tag_url t _
               Hadmin Hprobe Hwifi Hurl).
    by rewrite <- app_assoc.
  - apply template_context_wifi_keys.
Qed.

Lemma index_wifi_inactive_witness :
  exists ctx,
    index wired_host sample_svg sample_self admin_request [] =
      (Ok (render admin_request "network_info.html" ctx),
       [Spawn iwgetid_cmd; Spawn route_cmd; Spawn (addr_cmd "eth0");
        QrEncode "WIFI:S:None;T:WPA;P:None;;"; QrEncode "http://192.168.1.7/"])
    /\ ctx !! "ssid" = Some PyNone
    /\ ctx !! "password" = Some PyNone
    /\ ctx !! "wifi_qr" = Some PyNone.
Proof.
  apply (index_wifi_inactive wired_host sample_svg sample_self admin_request []
           "eth0" "192.168.1.7" 255%Z ""
           "<svg><path id='WIFI:S:None;T:WPA;P:None;;'/></svg>"
           "<svg><path id='http://192.168.1.7/'/></svg>");
    try reflexivity.
  discriminate.
Defined.

(** The claim C6 as worded fails on a host without Wi-Fi: the encoder is
    called on the Wi-Fi payload all the same. *)
Lemma index_qr_encodes_inactive_wifi_counterexample :
  wired_host iwgetid_cmd = Exited 255 ""
  /\ snd (index wired_host sample_svg sample_self admin_request []) =
       [Spawn iwgetid_cmd; Spawn route_cmd; Spawn (addr_cmd "eth0");
        QrEncode (wifi_payload None None); QrEncode "http://192.168.1.7/"]
  /\ position (QrEncode "WIFI:S:None;T:WPA;P:None;;")
       (snd (index wired_host sample_svg sample_self admin_request []))
     = Some 3%nat.
Proof. vm_compute. done. Qed.

(** C7, amended: for an admin the first external call is the Wi-Fi status
    command; the default-route command comes directly after it whenever
    [iwgetid] ran to an exit, then the address command, and the password
    helper comes after those. *)
Theorem index_wifi_status_first
    (host : list string -> completed) (svg_of : string -> string)
    (self : NetworkInfo) (request : WSGIRequest) (t : trace) :
  is_admin (base self) (user request) = true ->
  exists calls,
    snd (index host svg_of self request t) = t ++ Spawn iwgetid_cmd :: calls
    /\ (forall rc out,
          host iwgetid_cmd = Exited rc out ->
          exists calls', calls = Spawn route_cmd :: calls')
    /\ (forall out dev addr,
          host iwgetid_cmd = Exited 0 out ->
          fst (_get_default_device host []) = Ok dev ->
          fst (_ip_of_device host dev []) = Ok addr ->
          exists calls',
            calls = Spawn route_cmd :: Spawn (addr_cmd dev)
                    :: Spawn (password_cmd (Py.slice_to_m1 out)) :: calls').
Proof.
  intros Hadmin. unfold index. rewrite Hadmin. cbn [negb]. cbv zeta.
  unfold bind at 1. unfold index_probe. unfold bind at 1.
  pose proof (wifi_status_trace host t) as Htrace.
  destruct (wifi_status host t) as [[[name active]|e] t1] eqn:Hstatus;
    simpl in Htrace; subst t1.
  - (* the status step returned *)
    cbv zeta. simpl fst. simpl snd. unfold bind at 1.
    rewrite get_default_device_frame.
    destruct (fst (_get_default_device host [])) as [dev|e] eqn:Hdev.
    + unfold bind at 1. rewrite ip_of_device_frame.
      destruct (fst (_ip_of_device host dev [])) as [addr|e] eqn:Hip.
      * (* the network is up: the password step, then the page *)
        unfold bind at 1.
        destruct active.
        -- destruct name as [name|].
           ++ pose proof (wifi_password_trace host
                 (((t ++ [Spawn iwgetid_cmd]) ++ [Spawn route_cmd])
                     ++ [Spawn (addr_cmd dev)]) name) as Hpw.
              destruct (wifi_password host true (Some name) _)
                as [[pw|e] t2] eqn:Hpass; simpl in Hpw; subst t2.
              ** destruct (extends_index_page svg_of request
                    (context (base self) request)
                    {| ssid := Some name; password := pw; wifi_active := true;
                       device := dev; ip := addr |}
                    ((((t ++ [Spawn iwgetid_cmd]) ++ [Spawn route_cmd])
                        ++ [Spawn (addr_cmd dev)])
                       ++ [Spawn (password_cmd name)])) as [c Hc].
                 unfold ret at 1. rewrite Hc.
                 exists (Spawn route_cmd :: Spawn (addr_cmd dev)
                         :: Spawn (password_cmd name) :: c).
                 split; [by rewrite <- !app_assoc|].
                 split; [by eauto|].
                 intros out dev' addr' Hrun Hdev' Hip'.
                 rewrite (wifi_status_on host t out Hrun) in Hstatus.
                 simplify_eq. by eauto.
              ** exists [Spawn route_cmd; Spawn (addr_cmd dev);
                         Spawn (password_cmd name)].
                 split; [by rewrite <- !app_assoc|].
                 split; [by eauto|].
                 intros out dev' addr' Hrun Hdev' Hip'.
                 rewrite (wifi_status_on host t out Hrun) in Hstatus.
                 simplify_eq. by eauto.
           ++ exists [Spawn route_cmd; Spawn (addr_cmd dev)].
              split; [by rewrite <- !app_assoc|].
              split; [by eauto|].
              intros out dev' addr' Hrun Hdev' Hip'.
              rewrite (wifi_status_on host t out Hrun) in Hstatus.
              simplify_eq.
        -- rewrite wifi_password_skipped.
           destruct (extends_index_page svg_of request
                    (context (base self) request)
                    {| ssid := name; password := None; wifi_active := false;
                       device := dev; ip := addr |}
                    (((t ++ [Spawn iwgetid_cmd]) ++ [Spawn route_cmd])
                        ++ [Spawn (addr_cmd dev)])) as [c Hc].
           unfold ret at 1. rewrite Hc.
           exists (Spawn route_cmd :: Spawn (addr_cmd dev) :: c).
           split; [by rewrite <- !app_assoc|].
           split; [by eauto|].
           intros out dev' addr' Hrun Hdev' Hip'.
           rewrite (wifi_status_on host t out Hrun) in Hstatus.
           simplify_eq.
      * exists [Spawn route_cmd; Spawn (addr_cmd dev)].
        split; [by rewrite <- !app_assoc|].
        split; [by eauto|].
        intros out dev' addr' Hrun Hdev' Hip'. congruence.
    + exists [Spawn route_cmd].
      split; [by rewrite <- !app_assoc|].
      split; [by eauto|].
      intros out dev' addr' Hrun Hdev' Hip'. congruence.
  - (* the status step raised: [iwgetid] could not be started *)
    exists []. split; [done|]. split.
    + intros rc out Hrun.
      destruct (wifi_status_exited host t rc out Hrun) as [status E].
      rewrite E in Hstatus. simplify_eq.
    + intros out dev addr Hrun _ _.
      rewrite (wifi_status_on host t out Hrun) in Hstatus. simplify_eq.
Qed.

Lemma index_wifi_status_first_witness :
  exists calls,
    snd (index (wifi_host (Exited 1 "")) sample_svg sample_self admin_request [])
      = [] ++ Spawn iwgetid_cmd :: calls
    /\ (forall rc out,
          wifi_host (Exited 1 "") iwgetid_cmd = Exited rc out ->
          exists calls', calls = Spawn route_cmd :: calls')
    /\ (forall out dev addr,
          wifi_host (Exited 1 "") iwgetid_cmd = Exited 0 out ->
          fst (_get_default_device (wifi_host (Exited 1 "")) []) = Ok dev ->
          fst (_ip_of_device (wifi_host (Exited 1 "")) dev []) = Ok addr ->
          exists calls',
            calls = Spawn route_cmd :: Spawn (addr_cmd dev)
                    :: Spawn (password_cmd (Py.slice_to_m1 out)) :: calls').
Proof.
  apply (index_wifi_status_first (wifi_host (Exited 1 "")) sample_svg
           sample_self admin_request []).
  reflexivity.
Defined.

(** The claim C7 as worded fails on a host with Wi-Fi: the status command
    is the first call, the two network commands follow it. *)
Lemma index_network_probe_first_counterexample :
  let calls :=
    snd (index (wifi_host (Exited 1 "")) sample_svg sample_self admin_request [])
  in
  calls = [Spawn iwgetid_cmd; Spawn route_cmd; Spawn (addr_cmd "wlan0");
           Spawn (password_cmd "MyNet");
           QrEncode "WIFI:S:MyNet;T:WPA;P:None;;";
           QrEncode "http://192.168.1.5/"]
  /\ precedes (Spawn route_cmd) (Spawn iwgetid_cmd) calls = false
  /\ precedes (Spawn (addr_cmd "wlan0")) (Spawn iwgetid_cmd) calls = false
  /\ precedes (Spawn iwgetid_cmd) (Spawn route_cmd) calls = true.
Proof. vm_compute. done. Qed.

(** C8, amended: on a zero exit the SSID is the output without its last
    character, whatever that character is; an output that ends in a
    newline loses exactly that newline, and this SSID is the one the
    password helper is asked about. *)
Theorem ssid_drops_last_character
    (host : list string -> completed) (t : trace)
    (out dev addr : string) (rc : Z) (pw : string) :
  host iwgetid_cmd = Exited 0 out ->
  fst (_get_default_device host []) = Ok dev ->
  fst (_ip_of_device host dev []) = Ok addr ->
  host (password_cmd (Py.slice_to_m1 out)) = Exited rc pw ->
  exists f,
    index_probe host t =
      (Ok f, t ++ [Spawn iwgetid_cmd; Spawn route_cmd; Spawn (addr_cmd dev);
                   Spawn (password_cmd (Py.slice_to_m1 out))])
    /\ wifi_active f = true
    /\ ssid f = Some (Py.slice_to_m1 out)
    /\ (forall s c, out = s +:+ String c EmptyString -> ssid f = Some s)
    /\ (forall s, out = s +:+ NL -> ssid f = Some s)
    /\ (out = EmptyString -> ssid f = Some EmptyString).
Proof.
  intros Hrun Hdev Hip Hhelper.
  assert (exists pw', index_probe host t =
      (Ok {| ssid := Some (Py.slice_to_m1 out); password := pw';
             wifi_active := true; device := dev; ip := addr |},
       t ++ [Spawn iwgetid_cmd; Spawn route_cmd; Spawn (addr_cmd dev);
             Spawn (password_cmd (Py.slice_to_m1 out))])) as [pw' Hprobe].
  { destruct (decide (rc = 0%Z)) as [->|Hrc].
    - exists (Some pw). by apply index_probe_password.
    - exists None. by apply (index_probe_no_password host t dev addr Hdev Hip out rc pw). }
  eexists. split; [exact Hprobe|]. simpl.
  split; [done|]. split; [done|]. split; [|split].
  - intros s c ->. by rewrite slice_to_m1_snoc.
  - intros s ->. unfold NL. by rewrite slice_to_m1_snoc.
  - by intros ->.
Qed.

Lemma ssid_drops_last_character_witness :
  exists f,
    index_probe (wifi_host (Exited 1 "")) [] =
      (Ok f, [] ++ [Spawn iwgetid_cmd; Spawn route_cmd; Spawn (addr_cmd "wlan0");
                    Spawn (password_cmd (Py.slice_to_m1 ("MyNet" +:+ NL)))])
    /\ wifi_active f = true
    /\ ssid f = Some (Py.slice_to_m1 ("MyNet" +:+ NL))
    /\ (forall s c, "MyNet" +:+ NL = s +:+ String c EmptyString -> ssid f = Some s)
    /\ (forall s, "MyNet" +:+ NL = s +:+ NL -> ssid f = Some s)
    /\ ("MyNet" +:+ NL = EmptyString -> ssid f = Some EmptyString).
Proof.
  apply (ssid_drops_last_character (wifi_host (Exited 1 "")) []
           ("MyNet" +:+ NL) "wlan0" "192.168.1.5" 1%Z ""); reflexivity.
Defined.

(** The claim C8 as worded fails for an output with no newline at its
    end: the SSID loses its last letter. *)
Lemma ssid_without_newline_counterexample :
  bare_ssid_host iwgetid_cmd = Exited 0 "MyNet"
  /\ fst (index_probe bare_ssid_host []) =
       Ok {| ssid := Some "MyNe"; password := None; wifi_active := true;
             device := "wlan0"; ip := "192.168.1.5" |}
  /\ Py.slice_to_m1 "MyNet" ≠ "MyNet"
  /\ snd (index bare_ssid_host sample_svg sample_self admin_request []) =
       [Spawn iwgetid_cmd; Spawn route_cmd; Spawn (addr_cmd "wlan0");
        Spawn (password_cmd "MyNe");
        QrEncode "WIFI:S:MyNe;T:WPA;P:None;;"; QrEncode "http://192.168.1.5/"].
Proof. vm_compute. repeat split; congruence. Qed.

(** C9: with Wi-Fi active under the SSID [s] and a password helper that
    exits non-zero, the payload handed to the QR encoder for Wi-Fi is
    [WIFI:S:] then [s] then [;T:WPA;P:None;;]. *)
Theorem wifi_payload_without_password
    (host : list string -> completed) (svg_of : string -> string)
    (self : NetworkInfo) (request : WSGIRequest) (t : trace)
    (out s dev addr : string) (rc : Z) (pw : string) :
  is_admin (base self) (user request) = true ->
  host iwgetid_cmd = Exited 0 out ->
  Py.slice_to_m1 out = s ->
  fst (_get_default_device host []) = Ok dev ->
  fst (_ip_of_device host dev []) = Ok addr ->
  host (password_cmd s) = Exited rc pw -> rc ≠ 0%Z ->
  exists calls,
    snd (index host svg_of self request t) =
      t ++ [Spawn iwgetid_cmd; Spawn route_cmd; Spawn (addr_cmd dev);
            Spawn (password_cmd s);
            QrEncode ("WIFI:S:" +:+ s +:+ ";T:WPA;P:None;;")] ++ calls.
Proof.
  intros Hadmin Hrun <- Hdev Hip Hhelper Hrc.
  pose proof (index_probe_no_password host t dev addr Hdev Hip out rc pw
                Hrun Hhelper Hrc) as Hprobe.
  unfold index. rewrite Hadmin. cbn [negb]. cbv zeta.
  rewrite (bind_ok _ _ _ _ _ Hprobe). unfold index_page.
  cbn [ssid password ip].
  unfold bind at 1. pose proof (qr_path_trace svg_of
    (wifi_payload (Some (Py.slice_to_m1 out)) None)
    (t ++ [Spawn iwgetid_cmd; Spawn route_cmd; Spawn (addr_cmd dev);
           Spawn (password_cmd (Py.slice_to_m1 out))])) as Hqr.
  destruct (_qr_path svg_of _ _) as [[tag|e] t1]; simpl in Hqr; subst t1.
  - match goal with
    | |- context [bind ?m ?k ?t0] =>
        destruct (extends_bind m k (extends_qr_path _ _)
                    (fun a => extends_ret _) t0) as [c Hc]
    end.
    rewrite Hc. exists c. rewrite wifi_payload_no_password.
    by rewrite <- !app_assoc.
  - exists []. rewrite wifi_payload_no_password. simpl snd.
    by rewrite <- !app_assoc.
Qed.

Lemma wifi_payload_without_password_witness :
  exists calls,
    snd (index (wifi_host (Exited 1 "")) sample_svg sample_self admin_request [])
    = [] ++ [Spawn iwgetid_cmd; Spawn route_cmd; Spawn (addr_cmd "wlan0");
             Spawn (password_cmd "MyNet");
             QrEncode ("WIFI:S:" +:+ "MyNet" +:+ ";T:WPA;P:None;;")] ++ calls.
Proof.
  apply (wifi_payload_without_password (wifi_host (Exited 1 "")) sample_svg
           sample_self admin_request [] ("MyNet" +:+ NL) "MyNet"
           "wlan0" "192.168.1.5" 1%Z ""); try reflexivity.
  discriminate.
Defined.

(** C10: when the password helper exits with zero its output is the
    password as it stands: the context holds it unchanged and the Wi-Fi
    payload carries it between [P:] and [;;], a final newline included,
    while the SSID is the status output without its last character. *)
Theorem helper_output_verbatim
    (host : list string -> completed) (svg_of : string -> string)
    (self : NetworkInfo) (request : WSGIRequest) (t : trace)
    (out s dev addr pw tag_wifi tag_url : string) :
  is_admin (base self) (user request) = true ->
  host iwgetid_cmd = Exited 0 out ->
  Py.slice_to_m1 out = s ->
  fst (_get_default_device host []) = Ok dev ->
  fst (_ip_of_device host dev []) = Ok addr ->
  host (password_cmd s) = Exited 0 pw ->
  svg_tag svg_of ("WIFI:S:" +:+ s +:+ ";T:WPA;P:" +:+ pw +:+ ";;")
    = Some tag_wifi ->
  svg_tag svg_of (page_url addr) = Some tag_url ->
  exists ctx,
    index host svg_of self request t =
      (Ok (render request "network_info.html" ctx),
       t ++ [Spawn iwgetid_cmd; Spawn route_cmd; Spawn (addr_cmd dev);
             Spawn (password_cmd s);
             QrEncode ("WIFI:S:" +:+ s +:+ ";T:WPA;P:" +:+ pw +:+ ";;");
             QrEncode (page_url addr)])
    /\ ctx !! "password" = Some (PyStr pw)
    /\ ctx !! "ssid" = Some (PyStr s).
Proof.
  intros Hadmin Hrun <- Hdev Hip Hhelper Hwifi Hurl.
  pose proof (index_probe_password host t dev addr Hdev Hip out pw
                Hrun Hhelper) as Hprobe.
  eexists. split.
  - rewrite (index_up host svg_of self request _ tag_wifi tag_url t _
               Hadmin Hprobe Hwifi Hurl).
    by rewrite <- app_assoc.
  - split; apply template_context_wifi_keys.
Qed.

Lemma helper_output_verbatim_witness :
  exists ctx,
    index (wifi_host (Exited 0 ("secret" +:+ NL))) sample_svg sample_self
          admin_request [] =
      (Ok (render admin_request "network_info.html" ctx),
       [] ++ [Spawn iwgetid_cmd; Spawn route_cmd; Spawn (addr_cmd "wlan0");
              Spawn (password_cmd "MyNet");
              QrEncode ("WIFI:S:" +:+ "MyNet" +:+ ";T:WPA;P:"
                        +:+ ("secret" +:+ NL) +:+ ";;");
              QrEncode (page_url "192.168.1.5")])
    /\ ctx !! "password" = Some (PyStr ("secret" +:+ NL))
    /\ ctx !! "ssid" = Some (PyStr "MyNet").
Proof.
  apply (helper_output_verbatim (wifi_host (Exited 0 ("secret" +:+ NL)))
           sample_svg sample_self admin_request [] ("MyNet" +:+ NL) "MyNet"
           "wlan0" "192.168.1.5" ("secret" +:+ NL)
           "<svg><path id='WIFI:S:MyNet;T:WPA;P:secret"
           "<svg><path id='http://192.168.1.5/'/></svg>"); reflexivity.
Defined.

(** ** Every way the probe can end *)

Lemma wifi_status_not_started host t :
  host iwgetid_cmd = NotStarted ->
  wifi_status host t = (Raise (OSError iwgetid_cmd), t ++ [Spawn iwgetid_cmd]).
Proof.
  intros H. unfold wifi_status, try_except_CalledProcessError, bind,
    check_output, emit, raise. by rewrite H.
Qed.

Lemma wifi_password_not_started host t name :
  host (password_cmd name) = NotStarted ->
  wifi_password host true (Some name) t =
    (Raise (OSError (password_cmd name)), t ++ [Spawn (password_cmd name)]).
Proof.
  intros H. unfold wifi_password, try_except_CalledProcessError, bind,
    check_output, emit, raise. by rewrite H.
Qed.

(** [index_probe] once the status step has returned. *)
Lemma index_probe_after_status host t name active :
  wifi_status host t = (Ok (name, active), t ++ [Spawn iwgetid_cmd]) ->
  index_probe host t =
    match fst (_get_default_device host []) with
    | Raise e => (Raise e, t ++ [Spawn iwgetid_cmd; Spawn route_cmd])
    | Ok dev =>
        match fst (_ip_of_device host dev []) with
        | Raise e =>
            (Raise e, t ++ [Spawn iwgetid_cmd; Spawn route_cmd;
                            Spawn (addr_cmd dev)])
        | Ok addr =>
            match wifi_password host active name
                    (t ++ [Spawn iwgetid_cmd; Spawn route_cmd;
                           Spawn (addr_cmd dev)]) with
            | (Ok pw, t') =>
                (Ok {| ssid := name; password := pw; wifi_active := active;
                       device := dev; ip := addr |}, t')
            | (Raise e, t') => (Raise e, t')
            end
        end
    end.
Proof.
  intros Hstatus. unfold index_probe.
  rewrite (bind_ok _ _ _ _ _ Hstatus). cbv zeta. simpl fst. simpl snd.
  unfold bind at 1. rewrite get_default_device_frame.
  destruct (fst (_get_default_device host [])) as [dev|e];
    [|by rewrite <- app_assoc].
  unfold bind at 1. rewrite ip_of_device_frame.
  destruct (fst (_ip_of_device host dev [])) as [addr|e];
    [|by rewrite <- !app_assoc].
  unfold bind at 1. rewrite <- !app_assoc. simpl app.
  by destruct (wifi_password host active name _) as [[pw|e] t'].
Qed.

Lemma index_probe_outcome host t : probe_outcome host t (index_probe host t).
Proof.
  destruct (host iwgetid_cmd) as [rc out|] eqn:Hrun.
  - destruct (decide (rc = 0%Z)) as [->|Hrc].
    + rewrite (index_probe_after_status host t _ _ (wifi_status_on host t out Hrun)).
      destruct (fst (_get_default_device host [])) as [dev|e] eqn:Hdev;
        [|by eapply probe_device_failed].
      destruct (fst (_ip_of_device host dev [])) as [addr|e] eqn:Hip;
        [|by eapply probe_ip_failed].
      destruct (host (password_cmd (Py.slice_to_m1 out))) as [rc pw|] eqn:Hpw.
      * destruct (decide (rc = 0%Z)) as [->|Hrc].
        -- rewrite (wifi_password_found host _ _ pw Hpw). rewrite <- app_assoc.
           by eapply probe_password_found.
        -- rewrite (wifi_password_missing host _ _ rc pw Hpw Hrc).
           rewrite <- app_assoc. by eapply probe_password_missing.
      * rewrite (wifi_password_not_started host _ _ Hpw). rewrite <- app_assoc.
        by eapply probe_helper_not_started.
    + rewrite (index_probe_after_status host t _ _
                 (wifi_status_off host t rc out Hrun Hrc)).
      destruct (fst (_get_default_device host [])) as [dev|e] eqn:Hdev;
        [|by eapply probe_device_failed].
      destruct (fst (_ip_of_device host dev [])) as [addr|e] eqn:Hip;
        [|by eapply probe_ip_failed].
      rewrite wifi_password_skipped. by eapply probe_wifi_inactive.
  - unfold index_probe.
    rewrite (bind_raise _ _ _ _ _ (wifi_status_not_started host t Hrun)).
    by eapply probe_status_not_started.
Qed.

(** [index] for an admin: the probe, then the page. *)
Lemma index_admin host svg_of self request t :
  is_admin (base self) (user request) = true ->
  index host svg_of self request t =
    match index_probe host t with
    | (Ok f, t') =>
        index_page svg_of request (context (base self) request) f t'
    | (Raise e, t') => (Raise e, t')
    end.
Proof. intros H. unfold index. rewrite H. reflexivity. Qed.

Lemma index_page_cases svg_of request ctx f t :
  index_page svg_of request ctx f t =
    match svg_tag svg_of (wifi_payload (ssid f) (password f)) with
    | None =>
        (Raise IndexError, t ++ [QrEncode (wifi_payload (ssid f) (password f))])
    | Some tag_wifi =>
        match svg_tag svg_of (page_url (ip f)) with
        | None =>
            (Raise IndexError,
             t ++ [QrEncode (wifi_payload (ssid f) (password f));
                   QrEncode (page_url (ip f))])
        | Some tag_url =>
            (Ok (render request "network_info.html"
                   (template_context ctx f tag_wifi (page_url (ip f)) tag_url)),
             t ++ [QrEncode (wifi_payload (ssid f) (password f));
                   QrEncode (page_url (ip f))])
        end
    end.
Proof.
  unfold index_page, _qr_path, svg_tag, bind, emit, ret, raise.
  destruct (Py.split_on LF (svg_of (wifi_payload _ _)) !! 1%nat); [|done].
  cbv zeta.
  destruct (Py.split_on LF (svg_of (page_url _)) !! 1%nat);
    by rewrite <- app_assoc.
Qed.

(** ** Tokens carry no whitespace *)

Lemma has_space_app a b : has_space (a +:+ b) = has_space a || has_space b.
Proof.
  induction a as [|c a IH]; [done|].
  rewrite append_cons. simpl. by rewrite IH, orb_assoc.
Qed.

Lemma split_ws_no_space cur s :
  has_space cur = false ->
  Forall (fun w => has_space w = false) (Py.split_ws cur s).
Proof.
  revert cur. induction s as [|c s IH]; intros cur Hcur; simpl.
  - destruct (Py.is_empty cur); by repeat constructor.
  - destruct (Py.isspace c) eqn:Hc.
    + destruct (Py.is_empty cur); [by apply IH | constructor; [done | by apply IH]].
    + apply IH. rewrite has_space_app. simpl. by rewrite Hcur, Hc.
Qed.

Lemma split_tokens_no_space s w : w ∈ Py.split s -> has_space w = false.
Proof.
  intros Hw. pose proof (split_ws_no_space EmptyString s eq_refl) as HF.
  rewrite Forall_forall in HF. by apply HF.
Qed.

(** A string without whitespace is one token. *)
Lemma split_ws_one_token cur s :
  has_space s = false ->
  Py.split_ws cur s = if Py.is_empty (cur +:+ s) then [] else [cur +:+ s].
Proof.
  revert cur. induction s as [|c s IH]; intros cur; simpl.
  - by rewrite append_empty_r.
  - intros H. apply orb_false_iff in H as [Hc Hs]. rewrite Hc.
    rewrite IH by done. by rewrite append_assoc, append_cons.
Qed.

Lemma split_one_token s :
  Py.is_empty s = false -> has_space s = false -> Py.split s = [s].
Proof.
  intros Hne Hs. unfold Py.split. rewrite split_ws_one_token by done.
  rewrite append_empty_l. by rewrite Hne.
Qed.

(** The address command is five fixed words and the tokens of the device
    name. *)
Lemma addr_cmd_tokens device :
  addr_cmd device = ["ip"; "-4"; "a"; "show"; "dev"] ++ Py.split device.
Proof. reflexivity. Qed.

Lemma dev_candidates_tokens words d : d ∈ dev_candidates words -> d ∈ words.
Proof.
  induction words as [|w ws IH]; [by intros H; apply elem_of_nil in H|].
  destruct ws as [|x ws']; [by intros H; apply elem_of_nil in H|].
  rewrite dev_candidates_step. destruct (String.eqb w "dev").
  - intros [->|H]%elem_of_cons; [right; left | right; by apply IH].
  - intros H. right. by apply IH.
Qed.

(** What a returned device tells about the host. *)
Lemma get_default_device_ok_inv host t d t' :
  _get_default_device host t = (Ok d, t') ->
  t' = t ++ [Spawn route_cmd] /\
  exists output,
    host route_cmd = Exited 0 output
    /\ last (dev_candidates (Py.split output)) = Some d.
Proof.
  intros H. rewrite get_default_device_frame in H.
  injection H as Hres <-. split; [done|].
  destruct (host route_cmd) as [rc output|] eqn:Hrun.
  - destruct (decide (rc = 0%Z)) as [->|Hrc].
    + exists output. split; [done|].
      rewrite (get_default_device_spec host [] output Hrun) in Hres.
      simpl in Hres. by destruct (last _); simplify_eq.
    + unfold _get_default_device in Hres.
      rewrite (bind_raise _ _ _ _ _
                 (check_output_nonzero host _ _ _ [] Hrun Hrc)) in Hres.
      discriminate.
  - unfold _get_default_device, check_output, bind, emit, raise in Hres.
    rewrite Hrun in Hres. discriminate.
Qed.

Lemma found_device_is_token host t d t' :
  _get_default_device host t = (Ok d, t') ->
  exists output, host route_cmd = Exited 0 output /\ d ∈ Py.split output.
Proof.
  intros H. apply get_default_device_ok_inv in H as (_ & output & Hrun & Hlast).
  exists output. split; [done|].
  apply dev_candidates_tokens. by apply last_Some_elem_of.
Qed.

(** X1: for every output of a route command that exited with zero,
    [_get_default_device] returns the last token that directly follows a
    token [dev], and raises its not-found error when no token does. *)
Theorem get_default_device_refines_candidates
    (host : list string -> completed) (t : trace) (output : string) :
  host route_cmd = Exited 0 output ->
  _get_default_device host t =
    (match last (dev_candidates (Py.split output)) with
     | Some d => Ok d
     | None => Raise (ValueError "No default device found")
     end, t ++ [Spawn route_cmd]).
Proof. intros Hrun. by apply get_default_device_spec. Qed.

Lemma get_default_device_refines_candidates_witness :
  _get_default_device (wifi_host NotStarted) [] =
    (match last (dev_candidates (Py.split route_two_defaults)) with
     | Some d => Ok d
     | None => Raise (ValueError "No default device found")
     end, [] ++ [Spawn route_cmd]).
Proof.
  apply (get_default_device_refines_candidates (wifi_host NotStarted) []
           route_two_defaults).
  reflexivity.
Defined.

(** X2: a device name that [_get_default_device] returns is a token of
    the route output: it is not empty and holds no whitespace. *)
Theorem get_default_device_token
    (host : list string -> completed) (t t' : trace) (d : string) :
  _get_default_device host t = (Ok d, t') ->
  Py.is_empty d = false /\ has_space d = false
  /\ exists output, host route_cmd = Exited 0 output /\ d ∈ Py.split output.
Proof.
  intros H. destruct (found_device_is_token host t d t' H) as (output & Hrun & Hin).
  split; [by apply (split_tokens_nonempty output)|].
  split; [by apply (split_tokens_no_space output)|].
  by exists output.
Qed.

Lemma get_default_device_token_witness :
  Py.is_empty "wlan0" = false /\ has_space "wlan0" = false
  /\ exists output, wifi_host NotStarted route_cmd = Exited 0 output
                    /\ "wlan0" ∈ Py.split output.
Proof.
  apply (get_default_device_token (wifi_host NotStarted) [] [Spawn route_cmd]).
  reflexivity.
Defined.

(** X3: the device name found by [_get_default_device] reaches [ip] as
    one argument: the address command has exactly six words, the last of
    them the device. *)
Theorem addr_cmd_single_argument
    (host : list string -> completed) (t t' : trace) (d : string) :
  _get_default_device host t = (Ok d, t') ->
  addr_cmd d = ["ip"; "-4"; "a"; "show"; "dev"; d].
Proof.
  intros H. destruct (found_device_is_token host t d t' H) as (output & _ & Hin).
  rewrite addr_cmd_tokens, split_one_token; [done| |].
  - by apply (split_tokens_nonempty output).
  - by apply (split_tokens_no_space output).
Qed.

Lemma addr_cmd_single_argument_witness :
  addr_cmd "wlan0" = ["ip"; "-4"; "a"; "show"; "dev"; "wlan0"].
Proof.
  apply (addr_cmd_single_argument (wifi_host NotStarted) [] [Spawn route_cmd]).
  reflexivity.
Defined.

(** X4: a [dev] that is the last token of the route output has no device
    after it; when it is the only [dev], the lookup raises its not-found
    error. *)
Theorem get_default_device_trailing_dev
    (host : list string -> completed) (t : trace) (output : string)
    (pre : list string) :
  host route_cmd = Exited 0 output ->
  Py.split output = pre ++ ["dev"] ->
  "dev" ∉ pre ->
  _get_default_device host t =
    (Raise (ValueError "No default device found"), t ++ [Spawn route_cmd]).
Proof.
  intros Hrun Hwords Hpre.
  rewrite (get_default_device_scan host t output Hrun), Hwords.
  rewrite device_loop_skip; [done|].
  apply not_true_is_false. rewrite follows_dev_cut.
  intros (p & nex & post & E). apply Hpre.
  assert (Hlen : length (pre ++ ["dev"]) = length (p ++ "dev" :: nex :: post))
    by by rewrite E.
  rewrite !length_app in Hlen. simpl in Hlen.
  assert (Hp : pre !! length p = Some "dev").
  { rewrite <- (lookup_app_l pre ["dev"]) by lia.
    rewrite E. by rewrite list_lookup_middle. }
  by eapply list_elem_of_lookup_2.
Qed.

Lemma get_default_device_trailing_dev_witness :
  _get_default_device
    (scripted_host [(route_cmd, Exited 0 "default via 192.168.1.1 dev")]) [] =
    (Raise (ValueError "No default device found"), [] ++ [Spawn route_cmd]).
Proof.
  apply (get_default_device_trailing_dev _ []
           "default via 192.168.1.1 dev" ["default"; "via"; "192.168.1.1"]).
  - reflexivity.
  - reflexivity.
  - apply (bool_decide_unpack _). vm_compute. exact I.
Defined.

Lemma get_default_device_raise_inv
    (host : list string -> completed) (t t' : trace) (e : exn) :
  _get_default_device host t = (Raise e, t') ->
  (exists rc out, host route_cmd = Exited rc out /\ rc ≠ 0%Z
                  /\ e = CalledProcessError rc route_cmd)
  \/ (host route_cmd = NotStarted /\ e = OSError route_cmd)
  \/ (exists out, host route_cmd = Exited 0 out
                  /\ dev_candidates (Py.split out) = []
                  /\ e = ValueError "No default device found").
Proof.
  intros H. destruct (host route_cmd) as [rc out|] eqn:Hrun.
  - destruct (decide (rc = 0%Z)) as [->|Hrc].
    + right. right. exists out. split; [done|].
      rewrite (get_default_device_spec host t out Hrun) in H.
      destruct (last (dev_candidates (Py.split out))) eqn:L; [discriminate|].
      apply last_None in L. by simplify_eq.
    + left. exists rc, out. unfold _get_default_device in H.
      rewrite (bind_raise _ _ _ _ _
                 (check_output_nonzero host _ _ _ t Hrun Hrc)) in H.
      by simplify_eq.
  - right. left.
    unfold _get_default_device, check_output, bind, emit, raise in H.
    rewrite Hrun in H. by simplify_eq.
Qed.



(** ** The address that comes back *)

Lemma split_on_from_head_inv sep cur s a :
  Py.split_on_from sep cur s !! 0%nat = Some a ->
  exists p, a = cur +:+ p /\ occurs sep p = false
            /\ (has_space s = false -> has_space p = false).
Proof.
  revert cur. induction s as [|c s IH]; intros cur; simpl.
  - intros [= <-]. exists EmptyString. by rewrite append_empty_r.
  - destruct (Ascii.eqb c sep) eqn:Hc.
    + intros [= <-]. exists EmptyString. by rewrite append_empty_r.
    + intros H. destruct (IH _ H) as (p & -> & Hp & Hsp).
      exists (String c p). rewrite append_assoc, append_cons, append_empty_l.
      split; [done|]. simpl. rewrite Hc, Hp. split; [done|].
      intros [Hcs Hs]%orb_false_iff. by rewrite Hcs, Hsp.
Qed.

Lemma ip_loop_some_inv lines a :
  ip_loop lines = Ok (Some a) ->
  exists line field,
    line ∈ lines /\ inet_line line = true
    /\ field ∈ Py.split (Py.strip line)
    /\ Py.split_on SLASH field !! 0%nat = Some a.
Proof.
  induction lines as [|l lines IH]; [discriminate|].
  rewrite ip_loop_cons. destruct (inet_line l) eqn:Hl; simpl.
  - destruct (Py.split (Py.strip l) !! 1%nat) as [field|] eqn:Hf; [|discriminate].
    destruct (Py.split_on SLASH field !! 0%nat) as [x|] eqn:Hx; [|discriminate].
    intros [= <-]. exists l, field. split; [left|].
    split; [done|]. split; [by eapply list_elem_of_lookup_2 | done].
  - intros H. destruct (IH H) as (line & field & Hin & Hrest).
    exists line, field. split; [by right | done].
Qed.

Lemma ip_of_device_ok_inv host device t a t' :
  _ip_of_device host device t = (Ok a, t') ->
  exists output,
    host (addr_cmd device) = Exited 0 output
    /\ ip_loop (Py.split_on LF output) = Ok (Some a)
    /\ Py.is_empty a = false.
Proof.
  intros H. destruct (host (addr_cmd device)) as [rc output|] eqn:Hrun.
  - destruct (decide (rc = 0%Z)) as [->|Hrc].
    + exists output. split; [done|].
      rewrite (ip_of_device_scan host t device output Hrun) in H.
      destruct (ip_loop _) as [[x|]|e]; try discriminate.
      destruct (Py.is_empty x) eqn:Hx; [discriminate|]. by simplify_eq.
    + unfold _ip_of_device in H.
      rewrite (bind_raise _ _ _ _ _
                 (check_output_nonzero host _ _ _ t Hrun Hrc)) in H.
      discriminate.
  - unfold _ip_of_device, check_output, bind, emit, raise in H.
    rewrite Hrun in H. discriminate.
Qed.

(** X6: an address that [_ip_of_device] returns is not empty and holds
    neither a slash nor whitespace. *)
Theorem ip_of_device_address_clean
    (host : list string -> completed) (device : string) (t t' : trace)
    (a : string) :
  _ip_of_device host device t = (Ok a, t') ->
  Py.is_empty a = false /\ occurs SLASH a = false /\ has_space a = false.
Proof.
  intros H. apply ip_of_device_ok_inv in H as (output & _ & Hloop & Hne).
  split; [done|].
  apply ip_loop_some_inv in Hloop as (line & field & _ & _ & Hfield & Hhead).
  unfold Py.split_on in Hhead.
  apply split_on_from_head_inv in Hhead as (p & -> & Hp & Hsp).
  rewrite append_empty_l. split; [done|].
  apply Hsp. by apply (split_tokens_no_space (Py.strip line)).
Qed.

Lemma ip_of_device_address_clean_witness :
  Py.is_empty "192.168.1.5" = false /\ occurs SLASH "192.168.1.5" = false
  /\ has_space "192.168.1.5" = false.
Proof.
  apply (ip_of_device_address_clean (wifi_host NotStarted) "wlan0" []
           [Spawn (addr_cmd "wlan0")]).
  reflexivity.
Defined.

(** X7: when the first line that starts with [inet] has no second field,
    [_ip_of_device] stops there with the [IndexError] of the missing
    field; later lines are not looked at. *)
Theorem ip_of_device_single_field
    (host : list string -> completed) (t : trace) (device output : string)
    (pre : list string) (line : string) (post : list string) :
  host (addr_cmd device) = Exited 0 output ->
  Py.split_on LF output = pre ++ line :: post ->
  Forall (fun l => inet_line l = false) pre ->
  inet_line line = true ->
  length (Py.split (Py.strip line)) = 1%nat ->
  _ip_of_device host device t =
    (Raise IndexError, t ++ [Spawn (addr_cmd device)]).
Proof.
  intros Hrun Hlines Hpre Hline Hone.
  rewrite (ip_of_device_scan host t device output Hrun), Hlines.
  rewrite ip_loop_skip, ip_loop_cons, Hline by done. simpl negb. cbv iota.
  destruct (Py.split (Py.strip line)) as [|w [|w' ws]]; by simplify_eq/=.
Qed.

Lemma ip_of_device_single_field_witness :
  _ip_of_device
    (scripted_host
       [(addr_cmd "eth0",
         Exited 0 ("2: eth0: <UP>" +:+ NL +:+ "    inet" +:+ NL +:+
                   "    inet 10.0.0.1/8" +:+ NL))]) "eth0" [] =
    (Raise IndexError, [] ++ [Spawn (addr_cmd "eth0")]).
Proof.
  apply (ip_of_device_single_field _ [] "eth0"
           ("2: eth0: <UP>" +:+ NL +:+ "    inet" +:+ NL +:+
            "    inet 10.0.0.1/8" +:+ NL)
           ["2: eth0: <UP>"] "    inet" ["    inet 10.0.0.1/8"; ""]).
  - reflexivity.
  - reflexivity.
  - repeat constructor.
  - reflexivity.
  - reflexivity.
Defined.

Lemma ip_of_device_raise_inv
    (host : list string -> completed) (device : string) (t t' : trace)
    (e : exn) :
  _ip_of_device host device t = (Raise e, t') ->
  (exists rc out, host (addr_cmd device) = Exited rc out /\ rc ≠ 0%Z
                  /\ e = CalledProcessError rc (addr_cmd device))
  \/ (host (addr_cmd device) = NotStarted /\ e = OSError (addr_cmd device))
  \/ (exists out, host (addr_cmd device) = Exited 0 out
                  /\ (e = ValueError ("ip not found for " +:+ device)
                      \/ e = IndexError)).
Proof.
  intros H. destruct (host (addr_cmd device)) as [rc out|] eqn:Hrun.
  - destruct (decide (rc = 0%Z)) as [->|Hrc].
    + right. right. exists out. split; [done|].
      rewrite (ip_of_device_scan host t device out Hrun) in H.
      assert (Hloop : forall lines e', ip_loop lines = Raise e' -> e' = IndexError).
      { clear. induction lines as [|l lines IH]; intros e'; [discriminate|].
        rewrite ip_loop_cons. destruct (negb (inet_line l)); [apply IH|].
        destruct (Py.split (Py.strip l) !! 1%nat); [|by intros [= <-]].
        destruct (Py.split_on SLASH s !! 0%nat); [discriminate | by intros [= <-]]. }
      destruct (ip_loop _) as [[x|]|e'] eqn:L.
      * destruct (Py.is_empty x); simplify_eq. by left.
      * simplify_eq. by left.
      * simplify_eq. right. by eapply Hloop.
    + left. exists rc, out. unfold _ip_of_device in H.
      rewrite (bind_raise _ _ _ _ _
                 (check_output_nonzero host _ _ _ t Hrun Hrc)) in H.
      by simplify_eq.
  - right. left.
    unfold _ip_of_device, check_output, bind, emit, raise in H.
    rewrite Hrun in H. by simplify_eq.
Qed.



(** ** The QR helper *)

(** X9: [_qr_path] returns the second line of the SVG document, whatever
    follows it, and hands the payload to the encoder once. *)
Theorem qr_path_second_line
    (svg_of : string -> string) (data : string) (t : trace)
    (first second : string) :
  occurs LF first = false ->
  occurs LF second = false ->
  svg_of data = first +:+ NL +:+ second
  \/ (exists rest, svg_of data = first +:+ NL +:+ second +:+ NL +:+ rest) ->
  _qr_path svg_of data t = (Ok second, t ++ [QrEncode data]).
Proof.
  intros H1 H2 Hsvg. apply qr_path_ok. unfold svg_tag, Py.split_on.
  destruct Hsvg as [->|[rest ->]].
  - change (first +:+ NL +:+ second) with (first +:+ String LF second).
    rewrite split_on_from_first by done.
    by rewrite split_on_from_clean.
  - change (first +:+ NL +:+ second +:+ NL +:+ rest)
      with (first +:+ String LF (second +:+ String LF rest)).
    rewrite split_on_from_first by done.
    by rewrite split_on_from_first.
Qed.

Lemma qr_path_second_line_witness :
  _qr_path sample_svg "http://192.168.1.5/" [] =
    (Ok "<svg><path id='http://192.168.1.5/'/></svg>",
     [] ++ [QrEncode "http://192.168.1.5/"]).
Proof.
  apply (qr_path_second_line sample_svg "http://192.168.1.5/" []
           "<?xml version='1.0' encoding='UTF-8'?>").
  - reflexivity.
  - reflexivity.
  - left. reflexivity.
Defined.

(** X10: an SVG document of a single line has no second line:
    [_qr_path] raises [IndexError], after the payload went to the
    encoder. *)
Theorem qr_path_single_line
    (svg_of : string -> string) (data : string) (t : trace) :
  occurs LF (svg_of data) = false ->
  _qr_path svg_of data t = (Raise IndexError, t ++ [QrEncode data]).
Proof.
  intros H. unfold _qr_path, bind, emit, raise, Py.split_on.
  by rewrite split_on_from_clean.
Qed.

Lemma qr_path_single_line_witness :
  _qr_path (fun data => "<svg>" +:+ data +:+ "</svg>") "abc" [] =
    (Raise IndexError, [] ++ [QrEncode "abc"]).
Proof.
  apply (qr_path_single_line (fun data => "<svg>" +:+ data +:+ "</svg>") "abc" []).
  reflexivity.
Defined.

(** ** The handler on every host *)

Lemma index_admin_run host svg_of self request t :
  is_admin (base self) (user request) = true ->
  exists r t1,
    probe_outcome host t (r, t1)
    /\ index host svg_of self request t =
         match r with
         | Ok f => index_page svg_of request (context (base self) request) f t1
         | Raise e => (Raise e, t1)
         end.
Proof.
  intros Hadmin. rewrite (index_admin host svg_of self request t Hadmin).
  pose proof (index_probe_outcome host t) as Ho.
  destruct (index_probe host t) as [[f|e] t1]; by eexists _, _.
Qed.

(** Two equations for the same term are merged. *)
Ltac same_lhs :=
  repeat (match goal with
          | H1 : ?x = _, H2 : ?x = _ |- _ => rewrite H1 in H2
          end; simplify_eq);
  simplify_eq.

(** The external calls of one request, all different from one another. *)
Lemma calls_distinct dev name (s p : option string) addr :
  NoDup [Spawn iwgetid_cmd; Spawn route_cmd; Spawn (addr_cmd dev);
         Spawn (password_cmd name);
         QrEncode (wifi_payload s p); QrEncode (page_url addr)].
Proof.
  repeat (apply NoDup_cons_2;
          [ rewrite ?elem_of_cons, elem_of_nil; intros H;
            repeat (destruct H as [H|H]; [vm_compute in H; discriminate|]);
            exact H
          | ]).
  apply NoDup_nil_2.
Qed.

Lemma calls_distinct_sub dev name s p addr calls :
  calls `sublist_of`
    [Spawn iwgetid_cmd; Spawn route_cmd; Spawn (addr_cmd dev);
     Spawn (password_cmd name);
     QrEncode (wifi_payload s p); QrEncode (page_url addr)] ->
  NoDup calls /\ (length calls <= 6)%nat.
Proof.
  intros Hsub. split.
  - eapply sublist_NoDup; [apply calls_distinct | exact Hsub].
  - by apply sublist_length in Hsub.
Qed.

(** X11: for an admin, a failure of the default-device lookup is the
    failure of the request: [index] raises the same exception after the
    status and the route command, and encodes no QR code. *)
Theorem index_device_failure_propagates
    (host : list string -> completed) (svg_of : string -> string)
    (self : NetworkInfo) (request : WSGIRequest) (t : trace)
    (rc : Z) (out : string) (e : exn) :
  is_admin (base self) (user request) = true ->
  host iwgetid_cmd = Exited rc out ->
  fst (_get_default_device host []) = Raise e ->
  index host svg_of self request t =
    (Raise e, t ++ [Spawn iwgetid_cmd; Spawn route_cmd]).
Proof.
  intros Hadmin Hrun Hdev.
  destruct (index_admin_run host svg_of self request t Hadmin)
    as (r & t1 & Ho & ->).
  inversion Ho; subst; cbv beta iota; by same_lhs.
Qed.

Lemma index_device_failure_propagates_witness :
  index (scripted_host [(iwgetid_cmd, Exited 0 ("MyNet" +:+ NL));
                        (route_cmd, Exited 2 "")])
        sample_svg sample_self admin_request [] =
    (Raise (CalledProcessError 2 route_cmd),
     [] ++ [Spawn iwgetid_cmd; Spawn route_cmd]).
Proof.
  apply (index_device_failure_propagates _ sample_svg sample_self admin_request
           [] 0%Z ("MyNet" +:+ NL)); reflexivity.
Defined.

(** X12: for an admin, a failure of the address lookup is the failure of
    the request: [index] raises the same exception after the status, the
    route and the address command; the password helper is not asked, even
    with Wi-Fi active, and no QR code is encoded. *)
Theorem index_ip_failure_propagates
    (host : list string -> completed) (svg_of : string -> string)
    (self : NetworkInfo) (request : WSGIRequest) (t : trace)
    (rc : Z) (out dev : string) (e : exn) :
  is_admin (base self) (user request) = true ->
  host iwgetid_cmd = Exited rc out ->
  fst (_get_default_device host []) = Ok dev ->
  fst (_ip_of_device host dev []) = Raise e ->
  index host svg_of self request t =
    (Raise e, t ++ [Spawn iwgetid_cmd; Spawn route_cmd; Spawn (addr_cmd dev)]).
Proof.
  intros Hadmin Hrun Hdev Hip.
  destruct (index_admin_run host svg_of self request t Hadmin)
    as (r & t1 & Ho & ->).
  inversion Ho; subst; cbv beta iota; by same_lhs.
Qed.

Lemma index_ip_failure_propagates_witness :
  index (sample_host (Exited 0 ("MyNet" +:+ NL)) (Exited 0 "secret")
                     route_two_defaults addr_no_inet)
        sample_svg sample_self admin_request [] =
    (Raise (ValueError "ip not found for wlan0"),
     [] ++ [Spawn iwgetid_cmd; Spawn route_cmd; Spawn (addr_cmd "wlan0")]).
Proof.
  apply (index_ip_failure_propagates _ sample_svg sample_self admin_request
           [] 0%Z ("MyNet" +:+ NL) "wlan0"); reflexivity.
Defined.

(** X13: only a non-zero exit of [iwgetid] is absorbed.  When the command
    cannot be started, [index] raises the [OSError] and calls nothing
    else. *)
Theorem index_status_not_started
    (host : list string -> completed) (svg_of : string -> string)
    (self : NetworkInfo) (request : WSGIRequest) (t : trace) :
  is_admin (base self) (user request) = true ->
  host iwgetid_cmd = NotStarted ->
  index host svg_of self request t =
    (Raise (OSError iwgetid_cmd), t ++ [Spawn iwgetid_cmd]).
Proof.
  intros Hadmin Hrun.
  destruct (index_admin_run host svg_of self request t Hadmin)
    as (r & t1 & Ho & ->).
  inversion Ho; subst; cbv beta iota; by same_lhs.
Qed.

Lemma index_status_not_started_witness :
  index (scripted_host [(route_cmd, Exited 0 route_wired)])
        sample_svg sample_self admin_request [] =
    (Raise (OSError iwgetid_cmd), [] ++ [Spawn iwgetid_cmd]).
Proof.
  apply (index_status_not_started _ sample_svg sample_self admin_request []);
    reflexivity.
Defined.

(** X14: only a non-zero exit of the password helper is absorbed.  When
    the helper cannot be started on a host with Wi-Fi and network,
    [index] raises the [OSError] and encodes no QR code. *)
Theorem index_helper_not_started
    (host : list string -> completed) (svg_of : string -> string)
    (self : NetworkInfo) (request : WSGIRequest) (t : trace)
    (out dev addr : string) :
  is_admin (base self) (user request) = true ->
  host iwgetid_cmd = Exited 0 out ->
  fst (_get_default_device host []) = Ok dev ->
  fst (_ip_of_device host dev []) = Ok addr ->
  host (password_cmd (Py.slice_to_m1 out)) = NotStarted ->
  index host svg_of self request t =
    (Raise (OSError (password_cmd (Py.slice_to_m1 out))),
     t ++ [Spawn iwgetid_cmd; Spawn route_cmd; Spawn (addr_cmd dev);
           Spawn (password_cmd (Py.slice_to_m1 out))]).
Proof.
  intros Hadmin Hrun Hdev Hip Hpw.
  destruct (index_admin_run host svg_of self request t Hadmin)
    as (r & t1 & Ho & ->).
  inversion Ho; subst; cbv beta iota; by same_lhs.
Qed.

Lemma index_helper_not_started_witness :
  index (wifi_host NotStarted) sample_svg sample_self admin_request [] =
    (Raise (OSError (password_cmd (Py.slice_to_m1 ("MyNet" +:+ NL)))),
     [] ++ [Spawn iwgetid_cmd; Spawn route_cmd; Spawn (addr_cmd "wlan0");
            Spawn (password_cmd (Py.slice_to_m1 ("MyNet" +:+ NL)))]).
Proof.
  apply (index_helper_not_started (wifi_host NotStarted) sample_svg sample_self
           admin_request [] ("MyNet" +:+ NL) "wlan0" "192.168.1.5");
    reflexivity.
Defined.

(** ** What a rendered page tells *)

Lemma template_context_fixed_keys ctx f wifi_qr url url_qr :
  template_context ctx f wifi_qr url url_qr !! "ip" = Some (PyStr (ip f))
  /\ template_context ctx f wifi_qr url url_qr !! "raveberry_url"
     = Some (PyStr url)
  /\ template_context ctx f wifi_qr url url_qr !! "raveberry_qr"
     = Some (PyStr url_qr).
Proof.
  unfold template_context. destruct (wifi_active f); by simplify_map_eq.
Qed.

Lemma template_context_other_keys ctx f wifi_qr url url_qr k :
  k ∉ page_keys ->
  template_context ctx f wifi_qr url url_qr !! k = ctx !! k.
Proof.
  unfold page_keys. rewrite !not_elem_of_cons. intros (?&?&?&?&?&?&_).
  unfold template_context.
  destruct (wifi_active f); by rewrite !lookup_insert_ne by done.
Qed.

(** The shapes of the facts a finished probe returns. *)
Lemma probe_outcome_facts host t f t1 :
  probe_outcome host t (Ok f, t1) ->
  fst (_get_default_device host []) = Ok (device f)
  /\ fst (_ip_of_device host (device f) []) = Ok (ip f)
  /\ ((wifi_active f = false /\ ssid f = None /\ password f = None)
      \/ (wifi_active f = true /\ exists out,
            host iwgetid_cmd = Exited 0 out
            /\ ssid f = Some (Py.slice_to_m1 out))).
Proof.
  inversion 1; subst; simpl; (split; [done|]); (split; [done|]);
    [by left | right; eauto | right; eauto].
Qed.

Lemma index_guest_redirect host svg_of self request t :
  is_admin (base self) (user request) = false ->
  index host svg_of self request t = (Ok (redirect "login"), t).
Proof. intros H. unfold index. by rewrite H. Qed.

(** A page comes from an admin request whose probe and QR codes all
    succeeded. *)
Lemma index_render_inv host svg_of self request t r tpl ctx t' :
  index host svg_of self request t = (Ok (render r tpl ctx), t') ->
  r = request /\ tpl = "network_info.html"
  /\ exists f t1 tag_wifi tag_url,
       probe_outcome host t (Ok f, t1)
       /\ svg_tag svg_of (wifi_payload (ssid f) (password f)) = Some tag_wifi
       /\ svg_tag svg_of (page_url (ip f)) = Some tag_url
       /\ ctx = template_context (context (base self) request) f
                  tag_wifi (page_url (ip f)) tag_url
       /\ t' = t1 ++ [QrEncode (wifi_payload (ssid f) (password f));
                      QrEncode (page_url (ip f))].
Proof.
  intros H.
  destruct (is_admin (base self) (user request)) eqn:Hadmin.
  - destruct (index_admin_run host svg_of self request t Hadmin)
      as ([f|e] & t1 & Ho & E); rewrite E in H; [|discriminate].
    rewrite index_page_cases in H.
    destruct (svg_tag svg_of (wifi_payload _ _)) as [tag_wifi|] eqn:Hw;
      [|discriminate].
    destruct (svg_tag svg_of (page_url _)) as [tag_url|] eqn:Hu;
      [|discriminate].
    injection H as <- <- <- <-. split; [done|]. split; [done|].
    by exists f, t1, tag_wifi, tag_url.
  - rewrite (index_guest_redirect host svg_of self request t Hadmin) in H.
    discriminate.
Qed.

(** X15: a page that [index] renders uses the template
    [network_info.html] and shows the address that [_ip_of_device] gave
    for the device that [_get_default_device] found: the key [ip] holds
    it, [raveberry_url] holds [http://] followed by it and a slash, and
    [raveberry_qr] holds the tag the QR helper returned for that URL. *)
Theorem index_page_address
    (host : list string -> completed) (svg_of : string -> string)
    (self : NetworkInfo) (request r : WSGIRequest) (t t' : trace)
    (tpl : string) (ctx : gmap string pyval) :
  index host svg_of self request t = (Ok (render r tpl ctx), t') ->
  r = request /\ tpl = "network_info.html"
  /\ exists dev addr tag,
       fst (_get_default_device host []) = Ok dev
       /\ fst (_ip_of_device host dev []) = Ok addr
       /\ svg_tag svg_of ("http://" +:+ addr +:+ "/") = Some tag
       /\ ctx !! "ip" = Some (PyStr addr)
       /\ ctx !! "raveberry_url" = Some (PyStr ("http://" +:+ addr +:+ "/"))
       /\ ctx !! "raveberry_qr" = Some (PyStr tag).
Proof.
  intros H. apply index_render_inv in H
    as (-> & -> & f & t1 & tag_wifi & tag_url & Ho & _ & Hu & -> & _).
  split; [done|]. split; [done|].
  apply probe_outcome_facts in Ho as (Hdev & Hip & _).
  exists (device f), (ip f), tag_url.
  pose proof (template_context_fixed_keys (context (base self) request) f
                tag_wifi (page_url (ip f)) tag_url) as (K1 & K2 & K3).
  by repeat split.
Qed.

Lemma index_page_address_witness :
  admin_request = admin_request /\ "network_info.html" = "network_info.html"
  /\ exists dev addr tag,
       fst (_get_default_device (wifi_host (Exited 0 ("secret" +:+ NL))) [])
         = Ok dev
       /\ fst (_ip_of_device (wifi_host (Exited 0 ("secret" +:+ NL))) dev [])
         = Ok addr
       /\ svg_tag sample_svg ("http://" +:+ addr +:+ "/") = Some tag
       /\ rendered_context (fst sample_page) !! "ip" = Some (PyStr addr)
       /\ rendered_context (fst sample_page) !! "raveberry_url"
          = Some (PyStr ("http://" +:+ addr +:+ "/"))
       /\ rendered_context (fst sample_page) !! "raveberry_qr"
          = Some (PyStr tag).
Proof.
  apply (index_page_address (wifi_host (Exited 0 ("secret" +:+ NL))) sample_svg
           sample_self admin_request admin_request [] (snd sample_page)
           "network_info.html" (rendered_context (fst sample_page))).
  vm_compute. reflexivity.
Defined.

(** X16: [index] leaves the base context as it is outside its own six
    keys: every other key of a rendered page has the value the base
    context gave it, or is absent as it was there. *)
Theorem index_base_context_kept
    (host : list string -> completed) (svg_of : string -> string)
    (self : NetworkInfo) (request r : WSGIRequest) (t t' : trace)
    (tpl : string) (ctx : gmap string pyval) (k : string) :
  index host svg_of self request t = (Ok (render r tpl ctx), t') ->
  k ∉ page_keys ->
  ctx !! k = context (base self) request !! k.
Proof.
  intros H Hk. apply index_render_inv in H
    as (_ & _ & f & t1 & tag_wifi & tag_url & _ & _ & _ & -> & _).
  by apply template_context_other_keys.
Qed.

Lemma index_base_context_kept_witness :
  rendered_context (fst sample_page) !! "base"
  = context (base sample_self) admin_request !! "base".
Proof.
  apply (index_base_context_kept (wifi_host (Exited 0 ("secret" +:+ NL)))
           sample_svg sample_self admin_request admin_request []
           (snd sample_page) "network_info.html").
  - vm_compute. reflexivity.
  - apply (bool_decide_unpack _). vm_compute. exact I.
Defined.

(** X17: in a rendered page the three Wi-Fi keys go together: either
    [ssid], [password] and [wifi_qr] are all [None], or [ssid] and
    [wifi_qr] are strings and [password] is a string or [None]. *)
Theorem index_wifi_keys_together
    (host : list string -> completed) (svg_of : string -> string)
    (self : NetworkInfo) (request r : WSGIRequest) (t t' : trace)
    (tpl : string) (ctx : gmap string pyval) :
  index host svg_of self request t = (Ok (render r tpl ctx), t') ->
  (ctx !! "ssid" = Some PyNone /\ ctx !! "password" = Some PyNone
   /\ ctx !! "wifi_qr" = Some PyNone)
  \/ (exists name tag,
        ctx !! "ssid" = Some (PyStr name)
        /\ ctx !! "wifi_qr" = Some (PyStr tag)
        /\ (ctx !! "password" = Some PyNone
            \/ exists pw, ctx !! "password" = Some (PyStr pw))).
Proof.
  intros H. apply index_render_inv in H
    as (_ & _ & f & t1 & tag_wifi & tag_url & Ho & _ & _ & -> & _).
  pose proof (template_context_wifi_keys (context (base self) request) f
                tag_wifi (page_url (ip f)) tag_url) as (K1 & K2 & K3).
  apply probe_outcome_facts in Ho
    as (_ & _ & [(Ha & Hs & Hp)|(Ha & out & _ & Hs)]);
    rewrite Ha in K1, K2, K3.
  - by left.
  - right. exists (Py.slice_to_m1 out), tag_wifi. rewrite Hs in K1.
    split; [done|]. split; [done|].
    destruct (password f) as [pw|]; [right; by exists pw | by left].
Qed.

Lemma index_wifi_keys_together_witness :
  (rendered_context (fst sample_page) !! "ssid" = Some PyNone
   /\ rendered_context (fst sample_page) !! "password" = Some PyNone
   /\ rendered_context (fst sample_page) !! "wifi_qr" = Some PyNone)
  \/ (exists name tag,
        rendered_context (fst sample_page) !! "ssid" = Some (PyStr name)
        /\ rendered_context (fst sample_page) !! "wifi_qr" = Some (PyStr tag)
        /\ (rendered_context (fst sample_page) !! "password" = Some PyNone
            \/ exists pw,
                 rendered_context (fst sample_page) !! "password"
                 = Some (PyStr pw))).
Proof.
  apply (index_wifi_keys_together (wifi_host (Exited 0 ("secret" +:+ NL)))
           sample_svg sample_self admin_request admin_request []
           (snd sample_page) "network_info.html").
  vm_compute. reflexivity.
Defined.

(** ** What the handler never does *)

Ltac sub_calls :=
  repeat first [ apply sublist_nil | apply sublist_skip | apply sublist_cons ].

(** X18: with an [iwgetid] that exits non-zero the password helper is
    never started, whatever else happens to the request. *)
Theorem index_no_helper_without_wifi
    (host : list string -> completed) (svg_of : string -> string)
    (self : NetworkInfo) (request : WSGIRequest) (t : trace)
    (rc : Z) (out : string) :
  host iwgetid_cmd = Exited rc out -> rc ≠ 0%Z ->
  exists calls,
    snd (index host svg_of self request t) = t ++ calls
    /\ forall name, Spawn (password_cmd name) ∉ calls.
Proof.
  intros Hrun Hrc.
  assert (Hclean : forall dev s p addr name calls,
            calls `sublist_of`
              [Spawn iwgetid_cmd; Spawn route_cmd; Spawn (addr_cmd dev);
               QrEncode (wifi_payload s p); QrEncode (page_url addr)] ->
            Spawn (password_cmd name) ∉ calls).
  { intros dev s p addr name calls Hsub Hin.
    eapply elem_of_sublist in Hin; [|exact Hsub].
    rewrite ?elem_of_cons, elem_of_nil in Hin.
    repeat (destruct Hin as [Hin|Hin]; [vm_compute in Hin; discriminate|]).
    exact Hin. }
  destruct (is_admin (base self) (user request)) eqn:Hadmin.
  - destruct (index_admin_run host svg_of self request t Hadmin)
      as (r & t1 & Ho & ->).
    inversion Ho; subst; cbv beta iota; same_lhs; try done;
      rewrite ?index_page_cases;
      repeat match goal with
             | |- context [svg_tag ?f ?d] => destruct (svg_tag f d)
             end;
      cbn [snd]; rewrite <- ?app_assoc;
      (eexists; split; [reflexivity|]); intros name;
      eapply (Hclean _ _ _ _ name); cbn [app]; sub_calls.
    Unshelve. all: first [exact EmptyString | exact None].
  - rewrite (index_guest_redirect host svg_of self request t Hadmin).
    exists []. split; [by rewrite app_nil_r|].
    intros name Hin. by apply elem_of_nil in Hin.
Qed.

Lemma index_no_helper_without_wifi_witness :
  exists calls,
    snd (index wired_host sample_svg sample_self admin_request []) = [] ++ calls
    /\ forall name, Spawn (password_cmd name) ∉ calls.
Proof.
  apply (index_no_helper_without_wifi wired_host sample_svg sample_self
           admin_request [] 255%Z "").
  - reflexivity.
  - discriminate.
Defined.

(** X19: one request makes at most six external calls and makes none of
    them twice: each command and each QR payload goes out once, there is
    no retry. *)
Theorem index_calls_bounded
    (host : list string -> completed) (svg_of : string -> string)
    (self : NetworkInfo) (request : WSGIRequest) :
  NoDup (snd (index host svg_of self request []))
  /\ (length (snd (index host svg_of self request [])) <= 6)%nat.
Proof.
  destruct (is_admin (base self) (user request)) eqn:Hadmin.
  - destruct (index_admin_run host svg_of self request [] Hadmin)
      as (r & t1 & Ho & ->).
    inversion Ho; subst; cbv beta iota;
      rewrite ?index_page_cases;
      repeat match goal with
             | |- context [svg_tag ?f ?d] => destruct (svg_tag f d)
             end;
      cbn [snd]; rewrite <- ?app_assoc; cbn [app];
      eapply calls_distinct_sub; sub_calls.
    Unshelve. all: first [exact EmptyString | exact None].
  - rewrite (index_guest_redirect host svg_of self request [] Hadmin).
    split; [apply NoDup_nil_2 | simpl; lia].
Qed.

(** X20: a [CalledProcessError] that leaves [index] comes from the route
    command or from the address command, which exited non-zero; those of
    [iwgetid] and of the password helper never leave it. *)
Theorem index_called_process_error_source
    (host : list string -> completed) (svg_of : string -> string)
    (self : NetworkInfo) (request : WSGIRequest) (t : trace)
    (rc : Z) (cmd : list string) :
  fst (index host svg_of self request t) = Raise (CalledProcessError rc cmd) ->
  rc ≠ 0%Z
  /\ (exists out, host cmd = Exited rc out)
  /\ (cmd = route_cmd \/ exists dev, cmd = addr_cmd dev).
Proof.
  intros H.
  destruct (is_admin (base self) (user request)) eqn:Hadmin.
  - destruct (index_admin_run host svg_of self request t Hadmin)
      as (r & t1 & Ho & E). rewrite E in H. clear E.
    inversion Ho; subst; cbv beta iota in H;
      rewrite ?index_page_cases in H;
      repeat match type of H with
             | context [svg_tag ?f ?d] => destruct (svg_tag f d)
             end;
      simpl in H; try discriminate; injection H as ->.
    + match goal with
      | Hd : fst (_get_default_device host []) = Raise _ |- _ =>
          apply (f_equal (fun r => (r, [Spawn route_cmd]))) in Hd;
          rewrite <- (app_nil_l [Spawn route_cmd]) in Hd at 1;
          rewrite <- get_default_device_frame in Hd;
          apply get_default_device_raise_inv in Hd
            as [(rc' & out' & Hrun & Hrc & [= -> ->])
               |[(_ & [=])|(out' & _ & _ & [=])]]
      end.
      split; [done|]. split; [by exists out' | by left].
    + match goal with
      | Hd : fst (_ip_of_device host ?dev []) = Raise _ |- _ =>
          apply (f_equal (fun r => (r, [Spawn (addr_cmd dev)]))) in Hd;
          rewrite <- (app_nil_l [Spawn (addr_cmd dev)]) in Hd at 1;
          rewrite <- ip_of_device_frame in Hd;
          apply ip_of_device_raise_inv in Hd
            as [(rc' & out' & Hrun & Hrc & [= -> ->])
               |[(_ & [=])|(out' & _ & [[=]|[=]])]]
      end.
      split; [done|]. split; [by exists out' | right; by eexists].
  - rewrite (index_guest_redirect host svg_of self request t Hadmin) in H.
    discriminate.
Qed.

Lemma index_called_process_error_source_witness :
  2%Z ≠ 0%Z
  /\ (exists out,
        scripted_host [(iwgetid_cmd, no_wifi); (route_cmd, Exited 2 "")]
          route_cmd = Exited 2 out)
  /\ (route_cmd = route_cmd \/ exists dev, route_cmd = addr_cmd dev).
Proof.
  apply (index_called_process_error_source
           (scripted_host [(iwgetid_cmd, no_wifi); (route_cmd, Exited 2 "")])
           sample_svg sample_self admin_request []).
  reflexivity.
Defined.

(** X21: the Wi-Fi payload is encoded before anyone looks at
    [wifi_active], so on a host without Wi-Fi an SVG document without a
    second line for the unused payload [WIFI:S:None;T:WPA;P:None;;] fails
    the request with [IndexError]; the URL is then never encoded. *)
Theorem index_unused_qr_failure
    (host : list string -> completed) (svg_of : string -> string)
    (self : NetworkInfo) (request : WSGIRequest) (t : trace)
    (rc : Z) (out dev addr : string) :
  is_admin (base self) (user request) = true ->
  host iwgetid_cmd = Exited rc out -> rc ≠ 0%Z ->
  fst (_get_default_device host []) = Ok dev ->
  fst (_ip_of_device host dev []) = Ok addr ->
  svg_tag svg_of "WIFI:S:None;T:WPA;P:None;;" = None ->
  index host svg_of self request t =
    (Raise IndexError,
     t ++ [Spawn iwgetid_cmd; Spawn route_cmd; Spawn (addr_cmd dev);
           QrEncode "WIFI:S:None;T:WPA;P:None;;"]).
Proof.
  intros Hadmin Hrun Hrc Hdev Hip Hsvg.
  destruct (index_admin_run host svg_of self request t Hadmin)
    as (r & t1 & Ho & ->).
  inversion Ho; subst; cbv beta iota; same_lhs; try done.
  rewrite index_page_cases. cbn [ssid password].
  change (wifi_payload None None) with "WIFI:S:None;T:WPA;P:None;;".
  rewrite Hsvg. by rewrite <- app_assoc.
Qed.

Lemma index_unused_qr_failure_witness :
  index wired_host
        (fun data => if String.eqb data "WIFI:S:None;T:WPA;P:None;;"
                     then "<svg/>" else sample_svg data)
        sample_self admin_request [] =
    (Raise IndexError,
     [] ++ [Spawn iwgetid_cmd; Spawn route_cmd; Spawn (addr_cmd "eth0");
            QrEncode "WIFI:S:None;T:WPA;P:None;;"]).
Proof.
  apply (index_unused_qr_failure wired_host _ sample_self admin_request []
           255%Z "" "eth0" "192.168.1.7"); try reflexivity.
  discriminate.
Defined.

(** X22: in a rendered page the SSID shown is the one the password helper
    was asked about, and the helper was asked about no other: [ssid] is
    the string [name] exactly when the helper ran with [name] as its
    argument. *)
Theorem index_ssid_is_helper_argument
    (host : list string -> completed) (svg_of : string -> string)
    (self : NetworkInfo) (request r : WSGIRequest) (t' : trace)
    (tpl : string) (ctx : gmap string pyval) (name : string) :
  index host svg_of self request [] = (Ok (render r tpl ctx), t') ->
  ctx !! "ssid" = Some (PyStr name) <-> Spawn (password_cmd name) ∈ t'.
Proof.
  intros H. apply index_render_inv in H
    as (_ & _ & f & t1 & tag_wifi & tag_url & Ho & _ & _ & -> & ->).
  pose proof (template_context_wifi_keys (context (base self) request) f
                tag_wifi (page_url (ip f)) tag_url) as (K1 & _ & _).
  rewrite K1. clear K1.
  inversion Ho; subst; cbn [wifi_active ssid password ip optional_str app];
    rewrite <- ?app_assoc; cbn [app];
    rewrite ?elem_of_cons, elem_of_nil.
  - split; [discriminate|].
    intros Hin.
    repeat (destruct Hin as [Hin|Hin]; [vm_compute in Hin; discriminate|]).
    done.
  - split.
    + intros [= ->]. tauto.
    + intros Hin.
      destruct Hin as [Hin|Hin]; [vm_compute in Hin; discriminate|].
      destruct Hin as [Hin|Hin]; [vm_compute in Hin; discriminate|].
      destruct Hin as [Hin|Hin]; [vm_compute in Hin; discriminate|].
      destruct Hin as [Hin|Hin]; [by injection Hin as ->|].
      repeat (destruct Hin as [Hin|Hin]; [vm_compute in Hin; discriminate|]).
      done.
  - split.
    + intros [= ->]. tauto.
    + intros Hin.
      destruct Hin as [Hin|Hin]; [vm_compute in Hin; discriminate|].
      destruct Hin as [Hin|Hin]; [vm_compute in Hin; discriminate|].
      destruct Hin as [Hin|Hin]; [vm_compute in Hin; discriminate|].
      destruct Hin as [Hin|Hin]; [by injection Hin as ->|].
      repeat (destruct Hin as [Hin|Hin]; [vm_compute in Hin; discriminate|]).
      done.
Qed.

Lemma index_ssid_is_helper_argument_witness :
  rendered_context (fst sample_page) !! "ssid" = Some (PyStr "MyNet")
  <-> Spawn (password_cmd "MyNet") ∈ snd sample_page.
Proof.
  apply (index_ssid_is_helper_argument
           (wifi_host (Exited 0 ("secret" +:+ NL))) sample_svg sample_self
           admin_request admin_request (snd sample_page) "network_info.html").
  vm_compute. reflexivity.
Defined.
